(** * elsewherr: tag reconciliation between Radarr and TMDB

    A shallow embedding of [elsewherr.py] and [providers.py].

    - Python [str] values are sequences of Unicode code points ([list N]).
    - The outside world (configuration file, Radarr, TMDB, the log file) is an
      oracle record; every HTTP call and every log line of a run is recorded,
      in order, in a trace of events.
    - Exceptions are values of [exn]; a computation is a trace together with
      either a result or the exception that ended it. *)

From Stdlib Require Import NArith ZArith Lia List Ascii String Bool.
From stdpp Require Import base list gmap sorting.
From Equations Require Import Equations.

Import ListNotations.
Local Open Scope N_scope.

(** ** Python strings *)

Abbreviation pystr := (list N).

(** A literal: the code points of an ASCII string. *)
Definition py (s : string) : pystr := map N_of_ascii (list_ascii_of_string s).
Arguments py : simpl never.

(** Membership in the character class [[A-Za-z0-9]]. *)
Definition is_alnum (c : N) : bool :=
  ((48 <=? c) && (c <=? 57)) || ((65 <=? c) && (c <=? 90)) || ((97 <=? c) && (c <=? 122)).

(** Membership in [[a-z0-9]]. *)
Definition is_lower_alnum (c : N) : bool :=
  ((48 <=? c) && (c <=? 57)) || ((97 <=? c) && (c <=? 122)).

(** *** [re.sub('[^A-Za-z0-9]+', '', s)]

    The pattern matches a longest non-empty run of characters outside the
    class; [skip_run s] is what is left of [s] after such a run at its head. *)
Fixpoint skip_run (s : pystr) : pystr :=
  match s with
  | [] => []
  | c :: r => if is_alnum c then s else skip_run r
  end.

(** Scanning left to right: where the pattern matches, the whole match is
    replaced by the (empty) replacement and scanning resumes after it; where
    it does not, the character is copied. *)
Equations? re_sub_non_alnum (s : pystr) : pystr by wf (length s) lt :=
  re_sub_non_alnum [] := [];
  re_sub_non_alnum (c :: r) with is_alnum c := {
    | true => c :: re_sub_non_alnum r
    | false => [] ++ re_sub_non_alnum (skip_run r)
  }.
Proof.
  assert (H : forall s, (length (skip_run s) <= length s)%nat).
  { clear. induction s as [|c r IH]; simpl; [lia|].
    destruct (is_alnum c); simpl; lia. }
  specialize (H r). simpl. lia.
Qed.

(** *** [str.lower()]

    CPython maps every code point below 128 with the ASCII table. A code
    point from 128 on is mapped by the Unicode database to one or more code
    points, for capital sigma depending on its neighbours; that table is the
    parameter [wl], given the (reversed) text before the character, the
    character and the text after it. *)
Definition ascii_lower (c : N) : N :=
  if (65 <=? c) && (c <=? 90) then c + 32 else c.

Definition wide_lower := pystr -> N -> pystr -> pystr.

Fixpoint lower_from (wl : wide_lower) (before s : pystr) : pystr :=
  match s with
  | [] => []
  | c :: r =>
      (if c <? 128 then [ascii_lower c] else wl before c r)
        ++ lower_from wl (c :: before) r
  end.

Definition lower (wl : wide_lower) (s : pystr) : pystr := lower_from wl [] s.

(** The table that leaves wide characters alone; on ASCII text every table
    gives the same result ([lower_ascii]). *)
Definition wide_id : wide_lower := fun _ c _ => [c].

(** *** [a in b], [s.replace(old, new)], [==] on strings *)

Fixpoint startswith (p s : pystr) : bool :=
  match p, s with
  | [], _ => true
  | _ :: _, [] => false
  | a :: p', b :: s' => (a =? b) && startswith p' s'
  end.

Fixpoint str_in (sub s : pystr) : bool :=
  startswith sub s ||
  match s with
  | [] => false
  | _ :: r => str_in sub r
  end.

(** [skip] counts the characters of an occurrence already replaced. *)
Fixpoint replace_from (old new : pystr) (skip : nat) (s : pystr) : pystr :=
  match s with
  | [] => []
  | c :: r =>
      match skip with
      | S k => replace_from old new k r
      | O =>
          if startswith old s
          then new ++ replace_from old new (length old - 1) r
          else c :: replace_from old new 0 r
      end
  end.

Definition str_replace (old new s : pystr) : pystr :=
  match old with
  | [] => new ++ flat_map (fun c => c :: new) s
  | _ :: _ => replace_from old new 0 s
  end.

Fixpoint str_eqb (a b : pystr) : bool :=
  match a, b with
  | [], [] => true
  | x :: a', y :: b' => (x =? y) && str_eqb a' b'
  | _, _ => false
  end.

(** [x in l] for a list of strings. *)
Definition list_in (x : pystr) (l : list pystr) : bool := existsb (str_eqb x) l.

(** ** Exceptions, results and JSON values *)

Inductive exn := KeyError | TypeError | ValueError | RequestException | OtherError.

Inductive result (A : Type) :=
| Ok (a : A)
| Raise (e : exn).
Arguments Ok {A} a.
Arguments Raise {A} e.

(** What [response.json()] returns. Floats behave like integers under the
    two operations the program applies to a decoded value (subscript and
    iteration), so one constructor stands for both. *)
#[local] Set Warnings "-register-all".
Inductive json :=
| JNull
| JBool (b : bool)
| JNum (n : Z)
| JStr (s : pystr)
| JArr (l : list json)
| JObj (items : list (pystr * json)).

Fixpoint dict_lookup {V : Type} (k : pystr) (items : list (pystr * V)) : option V :=
  match items with
  | [] => None
  | (k', v) :: r => if str_eqb k k' then Some v else dict_lookup k r
  end.

(** [v[k]] for a string key [k]. *)
Definition getitem (v : json) (k : pystr) : result json :=
  match v with
  | JObj items =>
      match dict_lookup k items with
      | Some x => Ok x
      | None => Raise KeyError
      end
  | _ => Raise TypeError
  end.

(** The elements [for x in v] runs over. *)
Definition iter (v : json) : result (list json) :=
  match v with
  | JArr l => Ok l
  | JObj items => Ok (map (fun kv => JStr (fst kv)) items)
  | JStr s => Ok (map (fun c => JStr [c]) s)
  | _ => Raise TypeError
  end.

(** [re.sub] accepts a string only. *)
Definition as_str (v : json) : result pystr :=
  match v with
  | JStr s => Ok s
  | _ => Raise TypeError
  end.

(** ** Records of the configuration file and of Radarr *)

Record Config := {
  radarrUrl : pystr;
  radarrApiKey : pystr;
  tmdbApiKey : pystr;
  tagPrefix : pystr;
  requiredProviders : list pystr;
  providerRegion : pystr
}.

(** A Radarr tag, [{"id": .., "label": ..}]. *)
Record Tag := { tag_id : Z; label : pystr }.

Record Movie := { title : pystr; tmdbId : Z; tags : list Z }.

(** An HTTP response: the status line and what [.json()] gives. *)
Record Response (A : Type) := { status : Z; json_body : result A }.
Arguments status {A} r.
Arguments json_body {A} r.

(** [response.raise_for_status()] *)
Definition raise_for_status {A} (r : Response A) : result unit :=
  if ((400 <=? status r) && (status r <? 600))%Z then Raise RequestException else Ok tt.

(** ** Traces *)

(** One constructor per logging call of [elsewherr.py]. *)
Inductive log_msg :=
| LoadingConfig
| ErrorLoadingConfig (e : exn)
| RequiredProvidersLower (l : list pystr)
| TagsPostResponse (st : Z)
| ErrorCreatingTag (provider : pystr) (e : exn)
| TagsGetResponse (st : Z)
| ExistingTags (l : list Tag)
| ErrorGettingTags (e : exn)
| GettingAllMovies (url : pystr)
| NumberOfMovies (n : nat)
| ErrorGettingMovies (e : exn)
| WorkingOnAllMovies
| Separator
| MovieTitle (t : pystr)
| MovieTmdbId (i : Z)
| MovieRecord (m : Movie)
| TmdbResponse (st : Z)
| FlatRateProviders (providers : json)
| NoFlatrateProviders
| ErrorGettingProviders (t : pystr) (e : exn)
| AddingTag (l : pystr)
| UpdatedMovieRecord (m : Movie)
| ErrorUpdatingMovie (t : pystr) (e : exn)
| RemoveAllProviderTags
| RemovingProviderId (i : Z)
| UnexpectedError (e : exn).

(** Everything a run does to the outside: log lines and HTTP requests.
    [PutMovie] is the request [PUT /api/v3/movie] with the movie as body. *)
Inductive event :=
| LogInfo (m : log_msg)
| LogError (m : log_msg)
| PostTag (l : pystr)
| GetTags
| GetMovies
| GetWatchProviders (tmdb_id : Z) (api_key : pystr)
| PutMovie (m : Movie).

(** The answers of the outside world: the configuration file, Radarr, and
    TMDB asked for the watch providers of a movie id. An answer is a response
    or the exception the call raises. The bodies of Radarr's listings are
    lists of tag and movie records, the shapes of its API; a body of another
    shape (an error object, say) has no answer here. *)
Record World := {
  config_file : result Config;
  post_tag : pystr -> result (Response unit);
  get_tags : result (Response (list Tag));
  get_movies : result (Response (list Movie));
  get_watch_providers : Z -> result (Response json)
}.

(** ** Computations: a trace, then a value or an exception *)

Definition M (A : Type) : Type := list event * result A.

Definition ret {A} (a : A) : M A := ([], Ok a).

Definition bind {A B} (m : M A) (f : A -> M B) : M B :=
  match m with
  | (t, Ok a) => let (t', r) := f a in (t ++ t', r)
  | (t, Raise e) => (t, Raise e)
  end.

Definition emit (e : event) : M unit := ([e], Ok tt).
Definition raise {A} (e : exn) : M A := ([], Raise e).
Definition lift {A} (r : result A) : M A := ([], r).

(** The body of a [try]: its outcome is handed to the handlers. *)
Definition attempt {A} (m : M A) : M (result A) := (fst m, Ok (snd m)).

(** An HTTP request: the request is made, then the world answers or the
    call raises. *)
Definition request {A} (ev : event) (answer : result A) : M A := (ev :: [], answer).

Declare Scope comp_scope.
Delimit Scope comp_scope with comp.
Notation "'let*' x := m 'in' k" := (bind m (fun x => k))
  (at level 10, x name, m at level 100, k at level 200) : comp_scope.
Notation "m >> k" := (bind m (fun _ => k))
  (at level 90, right associativity) : comp_scope.
Local Open Scope comp_scope.

(** [for x in l: body x] *)
Fixpoint for_each {A} (l : list A) (body : A -> M unit) : M unit :=
  match l with
  | [] => ret tt
  | x :: r => body x >> for_each r body
  end.

Definition trace {A} (m : M A) : list event := fst m.
Definition outcome {A} (m : M A) : result A := snd m.

(** ** [elsewherr.py] *)

Section Elsewherr.

Variable wl : wide_lower.
Variable w : World.

Definition load_config : M Config :=
  match config_file w with
  | Ok c => ret c
  | Raise e => emit (LogError (ErrorLoadingConfig e)) >> raise e
  end.

Definition create_provider_tags (config : Config) : M unit :=
  for_each (requiredProviders config) (fun required_provider =>
    let provider_tag :=
      lower wl (tagPrefix config ++ re_sub_non_alnum required_provider) in
    (* new_tag_json = {'label': provider_tag, 'id': 0} *)
    let* r := attempt (
      let* radarr_tags_post := request (PostTag provider_tag) (post_tag w provider_tag) in
      emit (LogInfo (TagsPostResponse (status radarr_tags_post)))) in
    match r with
    | Ok _ => ret tt
    | Raise e => emit (LogError (ErrorCreatingTag required_provider e))
    end).

Definition get_provider_tags (config : Config) (required_providers_lower : list pystr)
  : M (list Tag * list Tag) :=
  let* r := attempt (
    let* radarr_tags_get := request GetTags (get_tags w) in
    emit (LogInfo (TagsGetResponse (status radarr_tags_get))) >>
    let* existing_tags := lift (json_body radarr_tags_get) in
    emit (LogInfo (ExistingTags existing_tags)) >>
    let provider_tags_to_remove :=
      List.filter (fun existing_tag =>
        str_in (lower wl (tagPrefix config)) (label existing_tag)) existing_tags in
    let provider_tags_to_add :=
      List.filter (fun existing_tag =>
        list_in (str_replace (lower wl (tagPrefix config)) [] (label existing_tag))
                required_providers_lower) existing_tags in
    ret (provider_tags_to_remove, provider_tags_to_add)) in
  match r with
  | Ok v => ret v
  | Raise e => emit (LogError (ErrorGettingTags e)) >> raise e
  end.

Definition get_tmdb_providers (tmdb_id : Z) (api_key region : pystr) : M json :=
  let* tmdb_response :=
    request (GetWatchProviders tmdb_id api_key) (get_watch_providers w tmdb_id) in
  emit (LogInfo (TmdbResponse (status tmdb_response))) >>
  lift (json_body tmdb_response).

(** Lines 91 to 98: the tags of one movie's providers. *)
Definition match_providers (config : Config) (provider_tags_to_add : list Tag)
    (providers : list json) : M unit :=
  for_each providers (fun provider =>
    let* name := lift (getitem provider (py "provider_name")) in
    let* provider_name := lift (as_str name) in
    let tag_to_add :=
      lower wl (tagPrefix config ++ re_sub_non_alnum provider_name) in
    for_each provider_tags_to_add (fun provider_tag_to_add =>
      if str_in tag_to_add (label provider_tag_to_add)
      then emit (LogInfo (AddingTag tag_to_add))
           (* update_tags.append(provider_tag_to_add["id"]) is a comment *)
      else ret tt)).

(** Lines 78 to 81: the body of the [try] in the loop of [process_movies]. *)
Definition flatrate_providers (config : Config) (movie : Movie) : M json :=
  let* tmdb_providers :=
    get_tmdb_providers (tmdbId movie) (tmdbApiKey config) (providerRegion config) in
  let* results := lift (getitem tmdb_providers (py "results")) in
  let* in_region := lift (getitem results (providerRegion config)) in
  let* providers := lift (getitem in_region (py "flatrate")) in
  emit (LogInfo (FlatRateProviders providers)) >>
  ret providers.

(** One turn of the loop of [process_movies]. A handler that ends in
    [continue] ends the turn. *)
Definition process_movie (config : Config)
    (provider_tags_to_remove provider_tags_to_add : list Tag) (movie : Movie) : M unit :=
  let update := movie in
  emit (LogInfo Separator) >>
  emit (LogInfo (MovieTitle (title movie))) >>
  emit (LogInfo (MovieTmdbId (tmdbId movie))) >>
  emit (LogInfo (MovieRecord movie)) >>
  let* r := attempt (flatrate_providers config movie) in
  match r with
  | Raise KeyError => emit (LogInfo NoFlatrateProviders)
  | Raise e => emit (LogError (ErrorGettingProviders (title movie) e))
  | Ok providers =>
      (* update_tags = remove_provider_tags(...) is a comment *)
      let* provider_list := lift (iter providers) in
      match_providers config provider_tags_to_add provider_list >>
      (* update["tags"] = update_tags is a comment *)
      emit (LogInfo (UpdatedMovieRecord update))
      (* try: pass; the requests.put is a comment *)
  end.

Definition process_movies (movies : list Movie) (config : Config)
    (provider_tags_to_remove provider_tags_to_add : list Tag) : M unit :=
  for_each movies (process_movie config provider_tags_to_remove provider_tags_to_add).

(** [l.remove(x)]: the first occurrence goes; [ValueError] when there is none. *)
Fixpoint list_remove (x : Z) (l : list Z) : result (list Z) :=
  match l with
  | [] => Raise ValueError
  | y :: r =>
      if (x =? y)%Z then Ok r
      else match list_remove x r with
           | Ok r' => Ok (y :: r')
           | Raise e => Raise e
           end
  end.

(** The loop of [remove_provider_tags]; [update_tags] is the content of the
    list the caller passed, which the loop changes in place. *)
Fixpoint remove_ids (ids : list Z) (update_tags : list Z) : M (list Z) :=
  match ids with
  | [] => ret update_tags
  | provider_id_to_remove :: rest =>
      match list_remove provider_id_to_remove update_tags with
      | Ok update_tags' =>
          emit (LogInfo (RemovingProviderId provider_id_to_remove)) >>
          remove_ids rest update_tags'
      | Raise ValueError => remove_ids rest update_tags
      | Raise e => raise e
      end
  end.

Definition remove_provider_tags (update_tags : list Z) (provider_tags_to_remove : list Tag)
  : M (list Z) :=
  emit (LogInfo RemoveAllProviderTags) >>
  remove_ids (map tag_id provider_tags_to_remove) update_tags.

Definition get_movies_from_radarr (config : Config) : M (list Movie) :=
  let radarr_url := radarrUrl config ++ py "/api/v3/movie" in
  emit (LogInfo (GettingAllMovies radarr_url)) >>
  let* r := attempt (
    let* radarr_response := request GetMovies (get_movies w) in
    lift (raise_for_status radarr_response) >>
    let* movies := lift (json_body radarr_response) in
    emit (LogInfo (NumberOfMovies (length movies))) >>
    ret movies) in
  match r with
  | Ok movies => ret movies
  | Raise RequestException =>
      emit (LogError (ErrorGettingMovies RequestException)) >> ret []
  | Raise e => raise e
  end.

(** The body of the [try] of [main]. *)
Definition main_body : M unit :=
  let* config := load_config in
  let required_providers_lower :=
    map (fun x => lower wl (re_sub_non_alnum x)) (requiredProviders config) in
  emit (LogInfo (RequiredProvidersLower required_providers_lower)) >>
  create_provider_tags config >>
  let* both := get_provider_tags config required_providers_lower in
  let (provider_tags_to_remove, provider_tags_to_add) := both : list Tag * list Tag in
  let* movies := get_movies_from_radarr config in
  emit (LogInfo WorkingOnAllMovies) >>
  process_movies movies config provider_tags_to_remove provider_tags_to_add.

Definition main : M unit :=
  emit (LogInfo LoadingConfig) >>
  let* r := attempt main_body in
  match r with
  | Ok _ => ret tt
  | Raise e => emit (LogError (UnexpectedError e))
  end.

End Elsewherr.

(** ** [providers.py]

    The script's effect on [providers.txt] and the way it ends; its log file
    is left out. *)

Module Providers.

(** Records of the two TMDB reference lists. A provider record may lack the
    key [provider_name]. *)
Record Region := { iso_3166_1 : pystr; english_name : pystr }.
Record Provider := { provider_name : option pystr }.

(** [<=] on strings: lexicographic on code points, a proper prefix first. *)
Fixpoint str_leb (a b : pystr) : bool :=
  match a, b with
  | [], _ => true
  | _ :: _, [] => false
  | x :: a', y :: b' => (x <? y) || ((x =? y) && str_leb a' b')
  end.

Definition str_le (a b : pystr) : Prop := Is_true (str_leb a b).

#[global] Instance str_le_dec a b : Decision (str_le a b) := _.

(** [sorted(set(names))]: the set has no order of its own; [elements] is
    one enumeration of it, and the sort puts that enumeration in order. *)
Definition sorted_set (names : list pystr) : list pystr :=
  merge_sort str_le (elements (list_to_set names : gset pystr)).

Definition nl : pystr := [10].
Definition tab : pystr := [9].

(** The file [providers.txt]: its content, or [None] when there is none. *)
Definition file := option pystr.

(** The answers of TMDB; the decoded body is the value under ["results"],
    [None] when the body has no such key. *)
Record World := {
  config_file : result Config;
  regions_endpoint : result (Response (option (list Region)));
  providers_endpoint : result (Response (option (list Provider)))
}.

Definition load_config (w : World) : result Config := config_file w.

Definition remove_existing_file (f : file) : file :=
  match f with
  | Some _ => None
  | None => None
  end.

(** A [RequestException] is logged and raised again; any other exception
    passes through. *)
Definition fetch_data {A} (answer : result (Response (option (list A)))) : result (list A) :=
  match answer with
  | Raise e => Raise e
  | Ok response =>
      match raise_for_status response with
      | Raise e => Raise e
      | Ok _ =>
          match json_body response with
          | Raise e => Raise e
          | Ok (Some results) => Ok results
          | Ok None => Ok []
          end
      end
  end.

(** The text [write_to_file] writes. *)
Definition regions_section (regions : list Region) : pystr :=
  py "Regions" ++ nl ++ py "-------" ++ nl ++
  flat_map (fun r => iso_3166_1 r ++ tab ++ english_name r ++ nl) regions.

Definition providers_header : pystr :=
  nl ++ nl ++ py "Providers" ++ nl ++ py "---------" ++ nl.

Definition providers_section (providers : list pystr) : pystr :=
  flat_map (fun p => p ++ nl) providers.

(** The file is opened for appending. *)
Definition write_to_file (f : file) (regions : list Region) (providers : list pystr) : file :=
  let before := match f with Some c => c | None => [] end in
  Some (before ++ regions_section regions ++ providers_header ++ providers_section providers).

(** [p.get("provider_name", "")] *)
Definition name_or_empty (p : Provider) : pystr :=
  match provider_name p with
  | Some n => n
  | None => []
  end.

Definition all_providers (providers : list Provider) : list pystr :=
  sorted_set (map name_or_empty providers).

(** The file after the run, and how the run ended. *)
Definition main (w : World) (f : file) : file * result unit :=
  match load_config w with
  | Raise e => (f, Raise e)
  | Ok config =>
      (* api_key = config["tmdbApiKey"] *)
      let f := remove_existing_file f in
      match fetch_data (regions_endpoint w) with
      | Raise e => (f, Raise e)
      | Ok regions =>
          match fetch_data (providers_endpoint w) with
          | Raise e => (f, Raise e)
          | Ok providers =>
              (write_to_file f regions (all_providers providers), Ok tt)
          end
      end
  end.

End Providers.

(** ** Vocabulary of the specification *)

(** The label of the specification:
    lowercase(prefix + name without the characters outside [[A-Za-z0-9]]). *)
Definition spec_tag_label (wl : wide_lower) (prefix name : pystr) : pystr :=
  lower wl (prefix ++ List.filter is_alnum name).

(** The labels of the tag-creation requests of a trace. *)
Definition posted_labels (t : list event) : list pystr :=
  flat_map (fun e => match e with PostTag l => [l] | _ => [] end) t.

(** The log lines "Adding tag .." that a provider called [name] causes. *)
Definition adding_lines (wl : wide_lower) (config : Config) (to_add : list Tag)
    (name : pystr) : list event :=
  map (fun _ => LogInfo (AddingTag (spec_tag_label wl (tagPrefix config) name)))
      (List.filter (fun t => str_in (spec_tag_label wl (tagPrefix config) name) (label t))
                   to_add).

(** [sub] occurs in [s]. *)
Definition contains (sub s : pystr) : Prop := exists a b, s = a ++ sub ++ b.

(** Containment that ignores case: both sides are lowercased first. *)
Definition str_in_ci (wl : wide_lower) (sub s : pystr) : bool :=
  str_in (lower wl sub) (lower wl s).

(** The label without its leading prefix; a label that does not start with
    the prefix is left as it is. *)
Definition spec_strip_prefix (prefix l : pystr) : pystr :=
  if startswith prefix l then drop (length prefix) l else l.

(** [x] is none of [ids]. *)
Definition not_among (ids : list Z) (x : Z) : bool := negb (existsb (Z.eqb x) ids).

(** The response has no flat-rate list for the region: the body has no
    ["results"], or the results have no entry for the region, or that entry
    has no ["flatrate"]. *)
Definition lacks_flatrate (region : pystr) (body : json) : bool :=
  match body with
  | JObj items =>
      match dict_lookup (py "results") items with
      | None => true
      | Some (JObj by_region) =>
          match dict_lookup region by_region with
          | None => true
          | Some (JObj entry) =>
              match dict_lookup (py "flatrate") entry with
              | None => true
              | Some _ => false
              end
          | Some _ => false
          end
      | Some _ => false
      end
  | _ => false
  end.

(** The events of a turn that ends at "No Flatrate Providers". *)
Definition skipped_turn (config : Config) (movie : Movie) (st : Z) : list event :=
  [ LogInfo Separator;
    LogInfo (MovieTitle (title movie));
    LogInfo (MovieTmdbId (tmdbId movie));
    LogInfo (MovieRecord movie);
    GetWatchProviders (tmdbId movie) (tmdbApiKey config);
    LogInfo (TmdbResponse st);
    LogInfo NoFlatrateProviders ].

(** Events other than the two log lines that print a movie record and the
    update request. *)
Definition quiet (e : event) : bool :=
  match e with
  | LogInfo (MovieRecord _) | LogInfo (UpdatedMovieRecord _) | PutMovie _ => false
  | _ => true
  end.

(** The movies sent to Radarr's update endpoint. *)
Definition update_calls (t : list event) : list Movie :=
  flat_map (fun e => match e with PutMovie m => [m] | _ => [] end) t.

(** Every "Updated Movie record" line prints the record of the latest
    "Movie record from Radarr" line before it. *)
Fixpoint updates_agree (received : option Movie) (t : list event) : Prop :=
  match t with
  | [] => True
  | LogInfo (MovieRecord m) :: r => updates_agree (Some m) r
  | LogInfo (UpdatedMovieRecord u) :: r => received = Some u /\ updates_agree received r
  | _ :: r => updates_agree received r
  end.

(** Events of the movie stage: the movie listing, the requests to TMDB,
    an update request, and the log lines of [get_movies_from_radarr] and
    [process_movies]. *)
Definition movie_stage (e : event) : bool :=
  match e with
  | GetMovies | GetWatchProviders _ _ | PutMovie _ => true
  | LogInfo m | LogError m =>
      match m with
      | GettingAllMovies _ | NumberOfMovies _ | ErrorGettingMovies _
      | WorkingOnAllMovies | Separator | MovieTitle _ | MovieTmdbId _
      | MovieRecord _ | TmdbResponse _ | FlatRateProviders _
      | NoFlatrateProviders | ErrorGettingProviders _ _ | AddingTag _
      | UpdatedMovieRecord _ | ErrorUpdatingMovie _ _ => true
      | _ => false
      end
  | _ => false
  end.

Definition before_movies (t : list event) : bool :=
  forallb (fun e => negb (movie_stage e)) t.

(** ** Example runs *)

Definition config_of (prefix : pystr) (required : list pystr) (region : pystr) : Config :=
  {| radarrUrl := py "http://radarr:7878"; radarrApiKey := py "r"; tmdbApiKey := py "k";
     tagPrefix := prefix; requiredProviders := required; providerRegion := region |}.

(** A world in which every call succeeds. *)
Definition world_of (config : Config) (existing : list Tag) (movies : list Movie)
    (providers : Z -> json) : World :=
  {| config_file := Ok config;
     post_tag := fun _ => Ok {| status := 201; json_body := Ok tt |};
     get_tags := Ok {| status := 200; json_body := Ok existing |};
     get_movies := Ok {| status := 200; json_body := Ok movies |};
     get_watch_providers := fun i => Ok {| status := 200; json_body := Ok (providers i) |} |}.

(** The body [{"results": {region: {"flatrate": [{"provider_name": n}, ..]}}}]. *)
Definition flatrate_body (region : pystr) (names : list pystr) : json :=
  JObj [(py "results",
         JObj [(region,
                JObj [(py "flatrate",
                       JArr (map (fun n => JObj [(py "provider_name", JStr n)]) names))])])].

(** A provider record with a name. *)
Definition named (n : pystr) : Providers.Provider := {| Providers.provider_name := Some n |}.

Definition c1_config : Config := config_of (py "t-") [py "Netflix"; py "Disney+"] (py "US").
Definition c1_tags : list Tag :=
  [{| tag_id := 10; label := py "t-netflix" |}; {| tag_id := 11; label := py "t-hulu" |}].
Definition c1_providers : list json :=
  [ JObj [(py "provider_id", JNum 8); (py "provider_name", JStr (py "Netflix"))];
    JObj [(py "provider_name", JStr (py "Hulu"))] ].

(** Radarr lists a tag with an uppercase label. *)
Definition c2_config : Config := config_of (py "t-") [py "Netflix"] (py "US").
Definition c2_tags : list Tag := [{| tag_id := 1; label := py "T-Netflix" |}].
Definition c2_world : World := world_of c2_config c2_tags [] (fun _ => JNull).

(** The prefix occurs in the name of the required provider. *)
Definition c3_config : Config := config_of (py "x") [py "Netflix"] (py "US").
Definition c3_tags : list Tag := [{| tag_id := 7; label := py "xnetflix" |}].
Definition c3_movie : Movie := {| title := py "Okja"; tmdbId := 387426; tags := [] |}.
Definition c3_world : World :=
  world_of c3_config c3_tags [c3_movie] (fun _ => flatrate_body (py "US") [py "Netflix"]).

(** TMDB knows the movie in another region only. *)
Definition c5_config : Config := config_of (py "t-") [py "Netflix"] (py "US").
Definition c5_movie : Movie := {| title := py "Okja"; tmdbId := 387426; tags := [3%Z] |}.
Definition c5_body : json :=
  JObj [(py "id", JNum 387426);
        (py "results", JObj [(py "DE", JObj [(py "flatrate", JArr [])])])].
Definition c5_world : World := world_of c5_config c1_tags [c5_movie] (fun _ => c5_body).

(** Radarr is unreachable when the tags are listed. *)
Definition c6_world : World :=
  {| config_file := Ok c5_config;
     post_tag := fun _ => Ok {| status := 201; json_body := Ok tt |};
     get_tags := Raise RequestException;
     get_movies := Ok {| status := 200; json_body := Ok [c5_movie] |};
     get_watch_providers := fun _ => Ok {| status := 200; json_body := Ok c5_body |} |}.


(** One provider record has no name. *)
Definition c10_world : Providers.World :=
  {| Providers.config_file := Ok (config_of (py "t-") [] (py "US"));
     Providers.regions_endpoint := Ok {| status := 200; json_body := Ok (Some []) |};
     Providers.providers_endpoint :=
       Ok {| status := 200;
             json_body := Ok (Some [ named (py "Netflix");
                                     {| Providers.provider_name := None |};
                                     named (py "Hulu") ]) |} |}.

(** ** Further vocabulary *)

(** The HTTP requests among the events of a trace. *)
Definition is_request (e : event) : bool :=
  match e with
  | PostTag _ | GetTags | GetMovies | GetWatchProviders _ _ | PutMovie _ => true
  | _ => false
  end.

Definition requests (t : list event) : list event := List.filter is_request t.

(** The number of lines "Removing providerId: .." of a trace. *)
Definition removing_lines (t : list event) : nat :=
  length (List.filter
            (fun e => match e with LogInfo (RemovingProviderId _) => true | _ => false end) t).

(** The four lines that open the turn of a movie. *)
Definition turn_header (movie : Movie) : list event :=
  [ LogInfo Separator;
    LogInfo (MovieTitle (title movie));
    LogInfo (MovieTmdbId (tmdbId movie));
    LogInfo (MovieRecord movie) ].

(** The line a failed provider lookup ends with. *)
Definition lookup_failure_line (movie : Movie) (e : exn) : event :=
  match e with
  | KeyError => LogInfo NoFlatrateProviders
  | _ => LogError (ErrorGettingProviders (title movie) e)
  end.

(** The two events of one tag creation: the request, then the line for the
    response or for the exception. *)
Definition post_turn (wl : wide_lower) (w : World) (config : Config)
    (required_provider : pystr) : list event :=
  let l := spec_tag_label wl (tagPrefix config) required_provider in
  [ PostTag l;
    match post_tag w l with
    | Ok r => LogInfo (TagsPostResponse (status r))
    | Raise e => LogError (ErrorCreatingTag required_provider e)
    end ].

(** The events of [get_provider_tags], by the answer of Radarr. *)
Definition listing_events (w : World) : list event :=
  GetTags ::
  match get_tags w with
  | Raise e => [LogError (ErrorGettingTags e)]
  | Ok r =>
      LogInfo (TagsGetResponse (status r)) ::
      match json_body r with
      | Ok existing => [LogInfo (ExistingTags existing)]
      | Raise e => [LogError (ErrorGettingTags e)]
      end
  end.

(** The listing fails with [e]: the call raises it, or decoding the body does. *)
Definition listing_fails (w : World) (e : exn) : Prop :=
  get_tags w = Raise e
  \/ exists st, get_tags w = Ok {| status := st; json_body := Raise e |}.

(** The list of line 157. *)
Definition required_lower (wl : wide_lower) (config : Config) : list pystr :=
  map (fun x => lower wl (re_sub_non_alnum x)) (requiredProviders config).

(** ASCII text, and text with a character outside [[A-Za-z0-9]]. *)
Definition is_ascii (s : pystr) : Prop := Forall (fun c => c < 128) s.
Definition has_non_alnum (s : pystr) : Prop := Exists (fun c => is_alnum c = false) s.

(** A name without a line break. *)
Definition one_line (s : pystr) : Prop := ~ In 10 s.

(** ** Further example runs *)

(** The configuration file cannot be read. *)
Definition x1_world : World :=
  {| config_file := Raise OtherError;
     post_tag := fun _ => Ok {| status := 201; json_body := Ok tt |};
     get_tags := Ok {| status := 200; json_body := Ok c1_tags |};
     get_movies := Ok {| status := 200; json_body := Ok [c5_movie] |};
     get_watch_providers := fun _ => Ok {| status := 200; json_body := Ok c5_body |} |}.

(** Radarr answers the movie listing with 503. *)
Definition x8_world : World :=
  {| config_file := Ok c1_config;
     post_tag := fun _ => Raise RequestException;
     get_tags := Ok {| status := 200; json_body := Ok c1_tags |};
     get_movies := Ok {| status := 503; json_body := Ok [c5_movie] |};
     get_watch_providers := fun _ => Ok {| status := 200; json_body := Ok c5_body |} |}.

(** A flat-rate entry without a name, after one with a name. *)
Definition x9_body : json :=
  JObj [(py "results",
         JObj [(py "US",
                JObj [(py "flatrate",
                       JArr [ JObj [(py "provider_name", JStr (py "Netflix"))];
                              JObj [(py "provider_id", JNum 8)] ])])])].
Definition x9_world : World := world_of c1_config c1_tags [c5_movie] (fun _ => x9_body).

(** TMDB is unreachable. *)
Definition x10_world : World :=
  {| config_file := Ok c1_config;
     post_tag := fun _ => Ok {| status := 201; json_body := Ok tt |};
     get_tags := Ok {| status := 200; json_body := Ok c1_tags |};
     get_movies := Ok {| status := 200; json_body := Ok [c5_movie] |};
     get_watch_providers := fun _ => Raise RequestException |}.

(** The movie streams on Netflix and Hulu in the configured region. *)
Definition x20_world : World :=
  world_of c1_config c1_tags [c5_movie]
    (fun _ => flatrate_body (py "US") [py "Netflix"; py "Hulu"]).

(** TMDB refuses the key for the provider list. *)
Definition x14_world : Providers.World :=
  {| Providers.config_file := Ok (config_of (py "t-") [] (py "US"));
     Providers.regions_endpoint := Ok {| status := 200; json_body := Ok (Some []) |};
     Providers.providers_endpoint :=
       Ok {| status := 401; json_body := Ok (Some [named (py "Netflix")]) |} |}.

(** Radarr lists lowercase labels; the configured prefix is "T-". *)
Definition c2l_config : Config := config_of (py "T-") [py "Netflix"] (py "US").
Definition c2l_tags : list Tag :=
  [ {| tag_id := 10; label := py "t-netflix" |};
    {| tag_id := 12; label := py "4k" |};
    {| tag_id := 11; label := py "t-hulu" |} ].
Definition c2l_world : World := world_of c2l_config c2l_tags [] (fun _ => JNull).

(** The body of the tag listing is not JSON. *)
Definition x3_world : World :=
  {| config_file := Ok c1_config;
     post_tag := fun _ => Ok {| status := 201; json_body := Ok tt |};
     get_tags := Ok {| status := 502; json_body := Raise ValueError |};
     get_movies := Ok {| status := 200; json_body := Ok [c5_movie] |};
     get_watch_providers := fun _ => Ok {| status := 200; json_body := Ok c5_body |} |}.


(** * Properties *)

(** ** Strings *)

(** Boolean comparisons on code points, decided by [lia]. *)
Ltac nbool :=
  repeat match goal with
  | |- context [N.leb ?a ?b] => destruct (N.leb_spec a b)
  | |- context [N.ltb ?a ?b] => destruct (N.ltb_spec a b)
  | |- context [N.eqb ?a ?b] => destruct (N.eqb_spec a b)
  | H : context [N.leb ?a ?b] |- _ => destruct (N.leb_spec a b)
  | H : context [N.ltb ?a ?b] |- _ => destruct (N.ltb_spec a b)
  | H : context [N.eqb ?a ?b] |- _ => destruct (N.eqb_spec a b)
  end; simpl in *; try reflexivity; try discriminate; try lia.

Lemma filter_skip_run r : List.filter is_alnum (skip_run r) = List.filter is_alnum r.
Proof.
  induction r as [|c r IH]; simpl; [reflexivity|].
  destruct (is_alnum c) eqn:E; simpl; rewrite ?E; auto.
Qed.

(** Deleting the runs the pattern matches deletes exactly the characters
    outside the class. *)
Lemma re_sub_non_alnum_filter s : re_sub_non_alnum s = List.filter is_alnum s.
Proof.
  funelim (re_sub_non_alnum s); simp re_sub_non_alnum; simpl; rewrite ?Heq; simpl.
  - reflexivity.
  - f_equal. assumption.
  - rewrite H. apply filter_skip_run.
Qed.

Lemma is_alnum_ascii c : is_alnum c = true -> c < 128.
Proof. unfold is_alnum. intros H. nbool. Qed.

Lemma ascii_lower_alnum c : is_alnum c = true -> is_lower_alnum (ascii_lower c) = true.
Proof. unfold is_alnum, is_lower_alnum, ascii_lower. intros H. nbool. Qed.

Lemma is_lower_alnum_fixed c :
  is_lower_alnum c = true -> is_alnum c = true /\ ascii_lower c = c.
Proof. unfold is_alnum, is_lower_alnum, ascii_lower. intros H. split; nbool. Qed.

(** On ASCII text [lower] is the ASCII table, whatever the wide table is. *)
Lemma lower_from_ascii wl before s :
  Forall (fun c => c < 128) s -> lower_from wl before s = map ascii_lower s.
Proof.
  intros H. revert before. induction H as [|c r Hc Hr IH]; intros before; simpl.
  - reflexivity.
  - destruct (N.ltb_spec c 128); [|lia]. simpl. f_equal. apply IH.
Qed.

Lemma lower_ascii wl s :
  Forall (fun c => c < 128) s -> lower wl s = map ascii_lower s.
Proof. apply lower_from_ascii. Qed.

Lemma filter_alnum_ascii s : Forall (fun c => c < 128) (List.filter is_alnum s).
Proof.
  apply List.Forall_forall. intros c Hc. apply List.filter_In in Hc.
  apply is_alnum_ascii. tauto.
Qed.

Lemma lower_filter_alnum wl s :
  lower wl (List.filter is_alnum s) = map ascii_lower (List.filter is_alnum s).
Proof. apply lower_ascii, filter_alnum_ascii. Qed.

Lemma lower_filter_alnum_class s :
  Forall (fun c => is_lower_alnum c = true) (map ascii_lower (List.filter is_alnum s)).
Proof.
  apply List.Forall_forall. intros c Hc. apply List.in_map_iff in Hc.
  destruct Hc as [d [<- Hd]]. apply List.filter_In in Hd.
  apply ascii_lower_alnum. tauto.
Qed.

Lemma filter_all_true {A} (f : A -> bool) l :
  Forall (fun x => f x = true) l -> List.filter f l = l.
Proof.
  induction 1 as [|x r Hx Hr IH]; simpl; [reflexivity|]. rewrite Hx, IH. reflexivity.
Qed.

Lemma map_all_fixed {A} (f : A -> A) l :
  Forall (fun x => f x = x) l -> map f l = l.
Proof.
  induction 1 as [|x r Hx Hr IH]; simpl; [reflexivity|]. rewrite Hx, IH. reflexivity.
Qed.

(** ** Tag labels *)

Lemma bind_ok {A B} t (a : A) (f : A -> M B) :
  bind (t, Ok a) f = (t ++ trace (f a), outcome (f a)).
Proof. simpl. destruct (f a). reflexivity. Qed.

Lemma bind_lift_ok {A B} (a : A) (f : A -> M B) : bind (lift (Ok a)) f = f a.
Proof. unfold lift. rewrite bind_ok. destruct (f a). reflexivity. Qed.

Lemma for_each_cons {A} (x : A) r body :
  for_each (x :: r) body = bind (body x) (fun _ => for_each r body).
Proof. reflexivity. Qed.

Lemma create_provider_tags_ok wl w config :
  outcome (create_provider_tags wl w config) = Ok tt.
Proof.
  unfold create_provider_tags.
  induction (requiredProviders config) as [|x r IH]; simpl; [reflexivity|].
  destruct (post_tag w _) as [resp|e]; simpl.
  - destruct (for_each r _) as [t o]. simpl in *. assumption.
  - destruct (for_each r _) as [t o]. simpl in *. assumption.
Qed.

Lemma create_provider_tags_posts wl w config :
  posted_labels (trace (create_provider_tags wl w config))
  = map (spec_tag_label wl (tagPrefix config)) (requiredProviders config).
Proof.
  unfold create_provider_tags, spec_tag_label.
  induction (requiredProviders config) as [|x r IH]; simpl; [reflexivity|].
  rewrite <- IH, re_sub_non_alnum_filter.
  destruct (post_tag w _) as [resp|e]; simpl;
    destruct (for_each r _) as [t o]; simpl; reflexivity.
Qed.

Lemma for_each_tags_adding wl config to_add name :
  for_each to_add (fun provider_tag_to_add =>
    if str_in (spec_tag_label wl (tagPrefix config) name) (label provider_tag_to_add)
    then emit (LogInfo (AddingTag (spec_tag_label wl (tagPrefix config) name)))
    else ret tt)
  = (adding_lines wl config to_add name, Ok tt).
Proof.
  unfold adding_lines.
  induction to_add as [|t r IH]; simpl; [reflexivity|].
  rewrite IH. destruct (str_in _ (label t)); reflexivity.
Qed.

Lemma match_providers_named wl config to_add providers names :
  Forall2 (fun p n => getitem p (py "provider_name") = Ok (JStr n)) providers names ->
  match_providers wl config to_add providers
  = (flat_map (adding_lines wl config to_add) names, Ok tt).
Proof.
  unfold match_providers.
  induction 1 as [|p n ps ns Hp Hps IH]; [reflexivity|].
  rewrite for_each_cons, IH, Hp, bind_lift_ok. unfold as_str.
  rewrite bind_lift_ok, re_sub_non_alnum_filter.
  fold (spec_tag_label wl (tagPrefix config) n).
  rewrite for_each_tags_adding. reflexivity.
Qed.



(** C9. The normalization of line 157 (delete what is outside
    [A-Za-z0-9], then lowercase) is idempotent, and its output has no
    character outside [a-z0-9]. *)
Theorem C9_normalization_idempotent wl s :
  let normalize := fun x => lower wl (re_sub_non_alnum x) in
  normalize (normalize s) = normalize s
  /\ Forall (fun c => is_lower_alnum c = true) (normalize s).
Proof.
  cbv beta zeta. rewrite !re_sub_non_alnum_filter, !lower_filter_alnum.
  pose proof (lower_filter_alnum_class s) as Hc.
  split; [|exact Hc].
  rewrite filter_all_true.
  - apply map_all_fixed. eapply Forall_impl; [exact Hc|].
    intros c Hl. apply is_lower_alnum_fixed, Hl.
  - eapply Forall_impl; [exact Hc|].
    intros c Hl. apply is_lower_alnum_fixed, Hl.
Qed.

(** ** Classifying the existing tags *)

Lemma startswith_spec p s : startswith p s = true <-> exists b, s = p ++ b.
Proof.
  revert s. induction p as [|a p IH]; intros s; simpl.
  - split; eauto.
  - destruct s as [|b s]; simpl.
    + split; [discriminate|]. intros [x Hx]. discriminate.
    + rewrite andb_true_iff, IH, N.eqb_eq. split.
      * intros [-> [x ->]]. eauto.
      * intros [x Hx]. inversion Hx; subst. eauto.
Qed.

Lemma str_in_spec sub s : str_in sub s = true <-> contains sub s.
Proof.
  unfold contains. induction s as [|c r IH]; simpl.
  - rewrite orb_false_r, startswith_spec. split.
    + intros [b Hb]. exists [], b. exact Hb.
    + intros [a [b H]]. destruct a; simpl in H; [eauto|discriminate].
  - rewrite orb_true_iff, startswith_spec, IH. split.
    + intros [[b Hb]|[a [b Hb]]].
      * exists [], b. exact Hb.
      * exists (c :: a), b. simpl. rewrite Hb. reflexivity.
    + intros [a [b H]]. destruct a as [|x a]; simpl in H.
      * left. eauto.
      * right. inversion H; subst. eauto.
Qed.

(** What [get_provider_tags] does when Radarr answers with a list of tags. *)
Lemma get_provider_tags_listing wl w config rpl st existing :
  get_tags w = Ok {| status := st; json_body := Ok existing |} ->
  get_provider_tags wl w config rpl
  = ([GetTags; LogInfo (TagsGetResponse st); LogInfo (ExistingTags existing)],
     Ok (List.filter (fun t => str_in (lower wl (tagPrefix config)) (label t)) existing,
         List.filter (fun t =>
           list_in (str_replace (lower wl (tagPrefix config)) [] (label t)) rpl) existing)).
Proof. intros H. unfold get_provider_tags. rewrite H. reflexivity. Qed.

(** The first list of [get_provider_tags], whatever the labels are: the
    listing filtered by the test of line 52, which a tag passes exactly when
    its label, taken as it is, contains the lowercased prefix. *)
Lemma to_remove_lowered_prefix wl w config rpl st existing :
  get_tags w = Ok {| status := st; json_body := Ok existing |} ->
  exists to_remove to_add,
    outcome (get_provider_tags wl w config rpl) = Ok (to_remove, to_add)
    /\ to_remove
       = List.filter (fun t => str_in (lower wl (tagPrefix config)) (label t)) existing
    /\ to_add
       = List.filter (fun t =>
           list_in (str_replace (lower wl (tagPrefix config)) [] (label t)) rpl) existing
    /\ (forall t, In t to_remove <->
                  In t existing /\ contains (lower wl (tagPrefix config)) (label t)).
Proof.
  intros H. rewrite (get_provider_tags_listing _ _ _ _ _ _ H).
  eexists _, _. split; [reflexivity|]. split; [reflexivity|]. split; [reflexivity|].
  intros t. rewrite List.filter_In, str_in_spec. reflexivity.
Qed.

Lemma filter_same_on {A} (f g : A -> bool) l :
  Forall (fun x => f x = g x) l -> List.filter f l = List.filter g l.
Proof.
  induction 1 as [|x r Hx Hr IH]; [reflexivity|]. simpl. rewrite Hx, IH. reflexivity.
Qed.

(** C2. Radarr's labels are lowercase (a label is its own lowercase
    form). When Radarr lists such tags, the first list [get_provider_tags]
    returns holds, in the order of the listing, exactly the tags whose label
    contains the configured prefix when case is ignored; such a tag is in the
    first list whether or not it is in the second. *)
Theorem C2_to_remove_contains_prefix wl w config rpl st existing :
  get_tags w = Ok {| status := st; json_body := Ok existing |} ->
  Forall (fun t => lower wl (label t) = label t) existing ->
  exists to_remove to_add,
    outcome (get_provider_tags wl w config rpl) = Ok (to_remove, to_add)
    /\ to_remove
       = List.filter (fun t => str_in_ci wl (tagPrefix config) (label t)) existing
    /\ (forall t, In t to_remove <->
                  In t existing
                  /\ contains (lower wl (tagPrefix config)) (lower wl (label t)))
    /\ (forall t, In t to_add ->
                  str_in_ci wl (tagPrefix config) (label t) = true -> In t to_remove).
Proof.
  intros H Hlow.
  destruct (to_remove_lowered_prefix wl w config rpl st existing H)
    as [to_remove [to_add [Ho [Hr [Ha Hin]]]]].
  exists to_remove, to_add. split; [exact Ho|].
  assert (Hf : to_remove
               = List.filter (fun t => str_in_ci wl (tagPrefix config) (label t)) existing).
  { rewrite Hr. apply filter_same_on. eapply Forall_impl; [exact Hlow|].
    intros t Ht. unfold str_in_ci. rewrite Ht. reflexivity. }
  split; [exact Hf|]. split.
  - intros t. rewrite Hin. split.
    + intros [Ht Hc]. split; [exact Ht|].
      rewrite Forall_forall in Hlow. rewrite (Hlow t) by (apply list_elem_of_In, Ht).
      exact Hc.
    + intros [Ht Hc]. split; [exact Ht|].
      rewrite Forall_forall in Hlow. rewrite (Hlow t) in Hc by (apply list_elem_of_In, Ht).
      exact Hc.
  - intros t Ht Hc. rewrite Hf. apply List.filter_In. split; [|exact Hc].
    rewrite Ha in Ht. apply List.filter_In in Ht. tauto.
Qed.

Lemma C2_witness :
  (get_tags c2l_world = Ok {| status := 200; json_body := Ok c2l_tags |}
   /\ Forall (fun t => lower wide_id (label t) = label t) c2l_tags)
  /\ (exists to_remove to_add,
        outcome (get_provider_tags wide_id c2l_world c2l_config [py "netflix"])
          = Ok (to_remove, to_add)
        /\ to_remove
           = List.filter (fun t => str_in_ci wide_id (tagPrefix c2l_config) (label t)) c2l_tags
        /\ (forall t, In t to_remove <->
                      In t c2l_tags
                      /\ contains (lower wide_id (tagPrefix c2l_config))
                                  (lower wide_id (label t)))
        /\ (forall t, In t to_add ->
                      str_in_ci wide_id (tagPrefix c2l_config) (label t) = true ->
                      In t to_remove))
  /\ outcome (get_provider_tags wide_id c2l_world c2l_config [py "netflix"])
     = Ok ([ {| tag_id := 10; label := py "t-netflix" |};
             {| tag_id := 11; label := py "t-hulu" |} ],
           [ {| tag_id := 10; label := py "t-netflix" |} ]).
Proof.
  assert (Hlow : Forall (fun t => lower wide_id (label t) = label t) c2l_tags)
    by (repeat constructor).
  split; [split; [reflexivity|exact Hlow]|]. split; [|reflexivity].
  exact (C2_to_remove_contains_prefix wide_id c2l_world c2l_config [py "netflix"]
           200 c2l_tags eq_refl Hlow).
Defined.

(** On a label that is not lowercase the test is not the one that ignores
    case: with prefix "t-" the label "T-Netflix" is not taken. *)
Lemma uppercase_label_not_taken :
  outcome (get_provider_tags wide_id c2_world c2_config [py "netflix"]) = Ok ([], [])
  /\ str_in_ci wide_id (tagPrefix c2_config) (py "T-Netflix") = true.
Proof. split; reflexivity. Qed.

(** C3 at the failing input: prefix "x", required provider "Netflix". The
    program creates the tag "xnetflix"; Radarr lists it; its label with the
    prefix stripped is "netflix", the normalized required name; and the
    second list of [get_provider_tags] is empty, because [replace] deletes
    the "x" of "netflix" as well. The run then logs no "Adding tag" line for
    the movie, which streams on Netflix. *)
Theorem C3_to_add_at_failing_input :
  let rpl := map (fun x => lower wide_id (re_sub_non_alnum x)) (requiredProviders c3_config) in
  rpl = [py "netflix"]
  /\ posted_labels (trace (create_provider_tags wide_id c3_world c3_config)) = [py "xnetflix"]
  /\ list_in (spec_strip_prefix (lower wide_id (tagPrefix c3_config)) (py "xnetflix")) rpl = true
  /\ str_replace (lower wide_id (tagPrefix c3_config)) [] (py "xnetflix") = py "netfli"
  /\ outcome (get_provider_tags wide_id c3_world c3_config rpl) = Ok (c3_tags, [])
  /\ List.filter (fun e => match e with LogInfo (AddingTag _) => true | _ => false end)
       (trace (main wide_id c3_world)) = [].
Proof. vm_compute. repeat split. Qed.

(** ** Removing provider tags *)

Local Open Scope Z_scope.

Lemma list_remove_absent x l : ~ In x l -> list_remove x l = Raise ValueError.
Proof.
  induction l as [|y r IH]; simpl; [reflexivity|]. intros H.
  destruct (Z.eqb_spec x y) as [->|Hne]; [exfalso; apply H; left; reflexivity|].
  rewrite IH; [reflexivity|]. intros Hin. apply H. right. exact Hin.
Qed.

Lemma filter_absent x l : ~ In x l -> List.filter (fun y => negb (x =? y)) l = l.
Proof.
  induction l as [|y r IH]; simpl; [reflexivity|]. intros H.
  destruct (Z.eqb_spec x y) as [->|Hne]; [exfalso; apply H; left; reflexivity|].
  simpl. rewrite IH; [reflexivity|]. intros Hin. apply H. right. exact Hin.
Qed.

(** On a list without duplicates, removing the first occurrence removes
    the value. *)
Lemma list_remove_present x l :
  NoDup l -> In x l -> list_remove x l = Ok (List.filter (fun y => negb (x =? y)) l).
Proof.
  induction 1 as [|y r Hy Hr IH]; simpl; [contradiction|]. intros Hin.
  destruct (Z.eqb_spec x y) as [->|Hne]; simpl.
  - rewrite filter_absent; [reflexivity|]. rewrite <- list_elem_of_In. exact Hy.
  - destruct Hin as [->|Hin]; [contradiction|]. rewrite IH; [reflexivity|exact Hin].
Qed.

Lemma NoDup_filter_Z (f : Z -> bool) l : NoDup l -> NoDup (List.filter f l).
Proof.
  intros H. apply NoDup_ListNoDup. apply List.NoDup_filter. apply NoDup_ListNoDup, H.
Qed.

Lemma filter_filter_among x ids l :
  List.filter (not_among ids) (List.filter (fun y => negb (x =? y)) l)
  = List.filter (not_among (x :: ids)) l.
Proof.
  induction l as [|y r IH]; simpl; [reflexivity|].
  unfold not_among at 2. simpl. rewrite (Z.eqb_sym y x).
  destruct (x =? y); simpl; [exact IH|].
  fold (not_among ids y). destruct (not_among ids y); rewrite IH; reflexivity.
Qed.

Lemma outcome_emit_bind {B} e (m : M B) : outcome (bind (emit e) (fun _ => m)) = outcome m.
Proof. unfold emit. rewrite bind_ok. reflexivity. Qed.

Lemma list_remove_raises x l e : list_remove x l = Raise e -> e = ValueError.
Proof.
  induction l as [|y r IH]; simpl; [congruence|].
  destruct (x =? y); [discriminate|].
  destruct (list_remove x r); [discriminate|]. intros H. apply IH. congruence.
Qed.

(** Whatever the lists, the loop ends without an exception. *)
Lemma remove_ids_total ids l : exists l', outcome (remove_ids ids l) = Ok l'.
Proof.
  revert l. induction ids as [|x ids IH]; intros l; cbn [remove_ids].
  - exists l. reflexivity.
  - destruct (list_remove x l) as [l1|e] eqn:E.
    + rewrite outcome_emit_bind. apply IH.
    + rewrite (list_remove_raises _ _ _ E). apply IH.
Qed.

Lemma remove_ids_nodup ids l :
  NoDup l -> outcome (remove_ids ids l) = Ok (List.filter (not_among ids) l).
Proof.
  revert l. induction ids as [|x ids IH]; intros l Hl; cbn [remove_ids].
  - rewrite filter_all_true; [reflexivity|]. apply Forall_forall. reflexivity.
  - destruct (in_dec Z.eq_dec x l) as [Hin|Hout].
    + rewrite (list_remove_present _ _ Hl Hin), outcome_emit_bind.
      rewrite IH by (apply NoDup_filter_Z, Hl). rewrite filter_filter_among. reflexivity.
    + rewrite (list_remove_absent _ _ Hout), IH by exact Hl.
      rewrite <- filter_filter_among, (filter_absent _ _ Hout). reflexivity.
Qed.

(** C4. The tag ids of a movie are a set: a list without duplicates.
    On such a list [remove_provider_tags] returns, without raising, the list
    with every id of [to_remove] deleted and the other ids in their order; an
    id of [to_remove] that is not in the list changes nothing. So
    [remove_provider_tags [1,2,3] [{"id":2}]] is [1,3] and
    [remove_provider_tags [1,3] [{"id":99}]] is [1,3]. *)
Theorem C4_remove_provider_tags_nodup (current : list Z) (to_remove : list Tag) :
  NoDup current ->
  outcome (remove_provider_tags current to_remove)
    = Ok (List.filter (not_among (map tag_id to_remove)) current)
  /\ outcome (remove_provider_tags [1; 2; 3] [{| tag_id := 2; label := [] |}]) = Ok [1; 3]
  /\ outcome (remove_provider_tags [1; 3] [{| tag_id := 99; label := [] |}]) = Ok [1; 3].
Proof.
  intros H. split; [|split; reflexivity].
  unfold remove_provider_tags. rewrite outcome_emit_bind.
  apply remove_ids_nodup, H.
Qed.

Lemma C4_witness :
  NoDup [1; 2; 3]
  /\ outcome (remove_provider_tags [1; 2; 3]
                [{| tag_id := 2; label := [] |}; {| tag_id := 99; label := [] |}])
     = Ok (List.filter (not_among (map tag_id
             [{| tag_id := 2; label := [] |}; {| tag_id := 99; label := [] |}])) [1; 2; 3]).
Proof.
  assert (H : NoDup [1; 2; 3]) by (apply (bool_decide_unpack _); vm_compute; exact I).
  split; [exact H|].
  apply (C4_remove_provider_tags_nodup [1; 2; 3]
           [{| tag_id := 2; label := [] |}; {| tag_id := 99; label := [] |}] H).
Defined.

(** A list that is not a set: [list.remove] takes one occurrence of an
    id, so a second occurrence stays. *)
Lemma remove_provider_tags_repeated_id :
  outcome (remove_provider_tags [2; 2] [{| tag_id := 2; label := [] |}]) = Ok [2].
Proof. reflexivity. Qed.

Local Close Scope Z_scope.

(** ** Processing the movies *)

Lemma trace_bind {A B} (m : M A) (f : A -> M B) :
  trace (bind m f)
  = trace m ++ match outcome m with Ok a => trace (f a) | Raise _ => [] end.
Proof.
  destruct m as [t [a|e]]; simpl.
  - destruct (f a). reflexivity.
  - rewrite app_nil_r. reflexivity.
Qed.

Lemma outcome_bind {A B} (m : M A) (f : A -> M B) :
  outcome (bind m f)
  = match outcome m with Ok a => outcome (f a) | Raise e => Raise e end.
Proof.
  destruct m as [t [a|e]]; simpl; [|reflexivity]. destruct (f a). reflexivity.
Qed.

Lemma M_eta {A} (m : M A) : m = (trace m, outcome m).
Proof. destruct m. reflexivity. Qed.

Lemma flatrate_providers_lacking w config movie st body :
  get_watch_providers w (tmdbId movie) = Ok {| status := st; json_body := Ok body |} ->
  lacks_flatrate (providerRegion config) body = true ->
  flatrate_providers w config movie
  = ([GetWatchProviders (tmdbId movie) (tmdbApiKey config); LogInfo (TmdbResponse st)],
     Raise KeyError).
Proof.
  intros Hw Hl. unfold flatrate_providers, get_tmdb_providers, request. rewrite Hw.
  destruct body as [| | | | |items]; try discriminate. simpl in Hl.
  cbn [bind status json_body emit lift app getitem].
  destruct (dict_lookup (py "results") items) as [results|]; [|reflexivity].
  destruct results as [| | | | |by_region]; try discriminate.
  cbn [bind status json_body emit lift app getitem].
  destruct (dict_lookup (providerRegion config) by_region) as [entry|]; [|reflexivity].
  destruct entry as [| | | | |entry]; try discriminate.
  cbn [bind status json_body emit lift app getitem].
  destruct (dict_lookup (py "flatrate") entry); [discriminate|reflexivity].
Qed.

Lemma process_movie_skips wl w config to_remove to_add movie st body :
  get_watch_providers w (tmdbId movie) = Ok {| status := st; json_body := Ok body |} ->
  lacks_flatrate (providerRegion config) body = true ->
  process_movie wl w config to_remove to_add movie = (skipped_turn config movie st, Ok tt).
Proof.
  intros Hw Hl. unfold process_movie, attempt.
  rewrite (flatrate_providers_lacking _ _ _ _ _ Hw Hl). reflexivity.
Qed.

Lemma for_each_app_trace {A} (l1 l2 : list A) (body : A -> M unit) :
  trace (for_each (l1 ++ l2) body)
  = trace (for_each l1 body)
      ++ match outcome (for_each l1 body) with
         | Ok _ => trace (for_each l2 body)
         | Raise _ => []
         end.
Proof.
  induction l1 as [|x r IH]; [reflexivity|].
  rewrite <- app_comm_cons, !for_each_cons, !trace_bind, outcome_bind, IH.
  destruct (outcome (body x)); [|rewrite !app_nil_r; reflexivity].
  rewrite app_assoc. reflexivity.
Qed.

Lemma for_each_app_outcome {A} (l1 l2 : list A) (body : A -> M unit) :
  outcome (for_each (l1 ++ l2) body)
  = match outcome (for_each l1 body) with
    | Ok _ => outcome (for_each l2 body)
    | Raise e => Raise e
    end.
Proof.
  induction l1 as [|x r IH]; [reflexivity|].
  rewrite <- app_comm_cons, !for_each_cons, !outcome_bind, IH.
  destruct (outcome (body x)); reflexivity.
Qed.

(** C5. A movie whose TMDB response lacks the region (or the flat-rate
    list under it) is skipped: when the loop reaches it, its turn is four
    log lines, the request to TMDB, the response line and "No Flatrate
    Providers", with no request to Radarr and no exception, and the loop
    goes on with the next movie and the same tag lists. *)
Theorem C5_movie_without_flatrate_skipped
    wl w config to_remove to_add before movie rest st body :
  outcome (process_movies wl w before config to_remove to_add) = Ok tt ->
  get_watch_providers w (tmdbId movie) = Ok {| status := st; json_body := Ok body |} ->
  lacks_flatrate (providerRegion config) body = true ->
  process_movie wl w config to_remove to_add movie = (skipped_turn config movie st, Ok tt)
  /\ process_movies wl w (before ++ movie :: rest) config to_remove to_add
     = (trace (process_movies wl w before config to_remove to_add)
          ++ skipped_turn config movie st
          ++ trace (process_movies wl w rest config to_remove to_add),
        outcome (process_movies wl w rest config to_remove to_add)).
Proof.
  intros Hb Hw Hl.
  pose proof (process_movie_skips wl w config to_remove to_add movie st body Hw Hl) as Hs.
  split; [exact Hs|].
  rewrite (M_eta (process_movies wl w (before ++ movie :: rest) config to_remove to_add)).
  unfold process_movies in *.
  rewrite for_each_app_trace, for_each_app_outcome, Hb, for_each_cons, Hs, bind_ok.
  reflexivity.
Qed.

Lemma C5_witness :
  (outcome (process_movies wide_id c5_world [c5_movie] c5_config c1_tags c1_tags) = Ok tt
   /\ get_watch_providers c5_world (tmdbId c5_movie)
      = Ok {| status := 200; json_body := Ok c5_body |}
   /\ lacks_flatrate (providerRegion c5_config) c5_body = true)
  /\ process_movie wide_id c5_world c5_config c1_tags c1_tags c5_movie
     = (skipped_turn c5_config c5_movie 200, Ok tt)
  /\ process_movies wide_id c5_world ([c5_movie] ++ c5_movie :: [c5_movie]) c5_config
       c1_tags c1_tags
     = (trace (process_movies wide_id c5_world [c5_movie] c5_config c1_tags c1_tags)
          ++ skipped_turn c5_config c5_movie 200
          ++ trace (process_movies wide_id c5_world [c5_movie] c5_config c1_tags c1_tags),
        outcome (process_movies wide_id c5_world [c5_movie] c5_config c1_tags c1_tags)).
Proof.
  split; [repeat split|].
  exact (C5_movie_without_flatrate_skipped wide_id c5_world c5_config c1_tags c1_tags
           [c5_movie] c5_movie [c5_movie] 200 c5_body eq_refl eq_refl eq_refl).
Defined.

Lemma for_each_quiet {A} (l : list A) (body : A -> M unit) :
  (forall x, forallb quiet (trace (body x)) = true) ->
  forallb quiet (trace (for_each l body)) = true.
Proof.
  intros H. induction l as [|x r IH]; [reflexivity|].
  rewrite for_each_cons, trace_bind, forallb_app, H. simpl.
  destruct (outcome (body x)); [exact IH|reflexivity].
Qed.

Lemma match_providers_quiet wl config to_add providers :
  forallb quiet (trace (match_providers wl config to_add providers)) = true.
Proof.
  unfold match_providers. apply for_each_quiet. intros provider.
  destruct (getitem provider (py "provider_name")) as [name|e]; [|reflexivity].
  rewrite bind_lift_ok.
  destruct (as_str name) as [provider_name|e]; [|reflexivity].
  rewrite bind_lift_ok. apply for_each_quiet. intros t.
  destruct (str_in _ (label t)); reflexivity.
Qed.

Lemma flatrate_providers_quiet w config movie :
  forallb quiet (trace (flatrate_providers w config movie)) = true.
Proof.
  unfold flatrate_providers, get_tmdb_providers, request.
  destruct (get_watch_providers w (tmdbId movie)) as [[st [body|e]]|e];
    try reflexivity.
  cbn [bind status json_body emit lift app].
  destruct (getitem body (py "results")) as [results|e]; [|reflexivity].
  cbn [bind status json_body emit lift app].
  destruct (getitem results (providerRegion config)) as [in_region|e]; [|reflexivity].
  cbn [bind status json_body emit lift app].
  destruct (getitem in_region (py "flatrate")) as [providers|e]; reflexivity.
Qed.

(** A turn of the loop: the four opening lines, then events that print no
    movie record and update nothing, then at most the line that prints the
    record again. *)
Lemma process_movie_shape wl w config to_remove to_add movie :
  exists mid tail,
    trace (process_movie wl w config to_remove to_add movie)
    = [ LogInfo Separator; LogInfo (MovieTitle (title movie));
        LogInfo (MovieTmdbId (tmdbId movie)); LogInfo (MovieRecord movie) ]
        ++ mid ++ tail
    /\ forallb quiet mid = true
    /\ (tail = [] \/ tail = [LogInfo (UpdatedMovieRecord movie)]).
Proof.
  unfold process_movie.
  pose proof (flatrate_providers_quiet w config movie) as Hq.
  repeat (rewrite trace_bind; cbn [emit attempt trace outcome fst snd app]).
  destruct (flatrate_providers w config movie) as [t [providers|e]];
    cbn [trace fst snd] in *.
  - destruct (iter providers) as [l|e].
    + rewrite bind_lift_ok, trace_bind.
      pose proof (match_providers_quiet wl config to_add l) as Hm.
      destruct (match_providers wl config to_add l) as [t' [[]|e]];
        cbn [emit trace outcome fst snd] in *.
      * exists (t ++ t'), [LogInfo (UpdatedMovieRecord movie)].
        split; [|split; [|right; reflexivity]].
        -- rewrite <- !app_assoc. reflexivity.
        -- rewrite forallb_app, Hq, Hm. reflexivity.
      * exists (t ++ t'), []. split; [|split; [|left; reflexivity]].
        -- rewrite !app_nil_r. reflexivity.
        -- rewrite forallb_app, Hq, Hm. reflexivity.
    + exists t, []. split; [|split; [exact Hq|left; reflexivity]].
      rewrite !app_nil_r. reflexivity.
  - exists (t ++ [match e with
                  | KeyError => LogInfo NoFlatrateProviders
                  | _ => LogError (ErrorGettingProviders (title movie) e)
                  end]), [].
    split; [|split; [|left; reflexivity]].
    + destruct e; cbn [emit trace fst]; rewrite !app_nil_r; reflexivity.
    + rewrite forallb_app, Hq. destruct e; reflexivity.
Qed.

Lemma update_calls_app t1 t2 : update_calls (t1 ++ t2) = update_calls t1 ++ update_calls t2.
Proof. unfold update_calls. apply flat_map_app. Qed.

Lemma update_calls_quiet t : forallb quiet t = true -> update_calls t = [].
Proof.
  induction t as [|e r IH]; simpl; [reflexivity|].
  rewrite andb_true_iff. intros [He Hr]. rewrite (IH Hr).
  destruct e as [m|m| | | | |m]; try reflexivity. discriminate.
Qed.

Lemma updates_agree_quiet received t rest :
  forallb quiet t = true ->
  updates_agree received (t ++ rest) <-> updates_agree received rest.
Proof.
  induction t as [|e r IH]; simpl; [tauto|].
  rewrite andb_true_iff. intros [He Hr].
  destruct e as [m|m| | | | |m]; try (apply IH, Hr); try discriminate.
  destruct m; try (apply IH, Hr); discriminate.
Qed.

Lemma process_movies_cons wl w config to_remove to_add movie rest :
  trace (process_movies wl w (movie :: rest) config to_remove to_add)
  = trace (process_movie wl w config to_remove to_add movie)
      ++ match outcome (process_movie wl w config to_remove to_add movie) with
         | Ok _ => trace (process_movies wl w rest config to_remove to_add)
         | Raise _ => []
         end.
Proof. unfold process_movies. rewrite for_each_cons. apply trace_bind. Qed.

Lemma process_movies_no_update wl w config to_remove to_add movies :
  update_calls (trace (process_movies wl w movies config to_remove to_add)) = [].
Proof.
  induction movies as [|m rest IH]; [reflexivity|].
  rewrite process_movies_cons.
  destruct (process_movie_shape wl w config to_remove to_add m)
    as [mid [tail [-> [Hmid Htail]]]].
  rewrite !update_calls_app, (update_calls_quiet _ Hmid).
  assert (Ht : update_calls tail = []) by (destruct Htail as [->| ->]; reflexivity).
  rewrite Ht. simpl. destruct (outcome _); [exact IH|reflexivity].
Qed.

Lemma process_movies_updates_agree wl w config to_remove to_add movies received :
  updates_agree received (trace (process_movies wl w movies config to_remove to_add)).
Proof.
  revert received. induction movies as [|m rest IH]; intros received; [exact I|].
  rewrite process_movies_cons.
  destruct (process_movie_shape wl w config to_remove to_add m)
    as [mid [tail [-> [Hmid Htail]]]].
  set (R := match outcome _ with Ok _ => _ | Raise _ => [] end).
  assert (HR : forall r, updates_agree r R).
  { intros r. unfold R. destruct (outcome _); [apply IH|exact I]. }
  cbn [app updates_agree]. rewrite <- app_assoc.
  apply updates_agree_quiet; [exact Hmid|].
  destruct Htail as [->| ->]; cbn [app updates_agree]; [apply HR|].
  split; [reflexivity|apply HR].
Qed.

Lemma process_movies_updated_in wl w config to_remove to_add movies u :
  In (LogInfo (UpdatedMovieRecord u))
     (trace (process_movies wl w movies config to_remove to_add)) ->
  In u movies.
Proof.
  induction movies as [|m rest IH]; [intros []|].
  rewrite process_movies_cons.
  destruct (process_movie_shape wl w config to_remove to_add m)
    as [mid [tail [-> [Hmid Htail]]]].
  rewrite !List.in_app_iff. intros [[H|[H|H]]|H].
  - simpl in H. repeat (destruct H as [H|H]; [discriminate|]). contradiction.
  - exfalso. rewrite forallb_forall in Hmid. apply Hmid in H. discriminate.
  - destruct Htail as [->| ->]; [contradiction|].
    destruct H as [H|[]]. inversion H. left. reflexivity.
  - destruct (outcome _); [right; apply IH, H|contradiction].
Qed.

(** C7. Whatever the movies and the answers of TMDB, [process_movies]
    sends no update request to Radarr; every line "Updated Movie record to
    send to Radarr" prints the very record the line "Movie record from
    Radarr" printed for that movie, and that record is one of the input
    list. *)
Theorem C7_process_movies_updates_nothing wl w movies config to_remove to_add :
  let t := trace (process_movies wl w movies config to_remove to_add) in
  update_calls t = []
  /\ updates_agree None t
  /\ (forall u, In (LogInfo (UpdatedMovieRecord u)) t -> In u movies).
Proof.
  cbv zeta. split; [|split].
  - apply process_movies_no_update.
  - apply process_movies_updates_agree.
  - intros u. apply process_movies_updated_in.
Qed.

(** ** The order of a run *)

Lemma create_provider_tags_before_movies wl w config :
  before_movies (trace (create_provider_tags wl w config)) = true.
Proof.
  unfold create_provider_tags, before_movies.
  induction (requiredProviders config) as [|x r IH]; [reflexivity|].
  rewrite for_each_cons, trace_bind, forallb_app. apply andb_true_iff. split.
  - unfold request, attempt. destruct (post_tag w _) as [resp|e]; reflexivity.
  - destruct (outcome _); [exact IH|reflexivity].
Qed.

Lemma get_provider_tags_before_movies wl w config rpl :
  before_movies (trace (get_provider_tags wl w config rpl)) = true.
Proof.
  unfold get_provider_tags, request, attempt.
  destruct (get_tags w) as [[st [existing|e]]|e]; reflexivity.
Qed.

(** The two ways the listing fails, and that each makes
    [get_provider_tags] raise. *)
Lemma get_provider_tags_fails wl w config rpl e :
  (get_tags w = Raise e \/ exists st, get_tags w = Ok {| status := st; json_body := Raise e |}) ->
  outcome (get_provider_tags wl w config rpl) = Raise e.
Proof.
  unfold get_provider_tags, request, attempt.
  intros [H|[st H]]; rewrite H; reflexivity.
Qed.

Lemma main_body_tags_fail wl w config e :
  config_file w = Ok config ->
  let rpl := map (fun x => lower wl (re_sub_non_alnum x)) (requiredProviders config) in
  outcome (get_provider_tags wl w config rpl) = Raise e ->
  trace (main_body wl w)
  = LogInfo (RequiredProvidersLower rpl)
      :: trace (create_provider_tags wl w config)
      ++ trace (get_provider_tags wl w config rpl)
  /\ outcome (main_body wl w) = Raise e.
Proof.
  intros Hc rpl He. unfold main_body, load_config. rewrite Hc.
  change (ret config) with (([], Ok config) : M Config). rewrite bind_ok.
  cbn [trace outcome fst snd app]. split.
  - rewrite !trace_bind. cbn [emit trace outcome fst snd app].
    rewrite create_provider_tags_ok. fold rpl. rewrite He, app_nil_r. reflexivity.
  - rewrite !outcome_bind. cbn [emit trace outcome fst snd app].
    rewrite create_provider_tags_ok. fold rpl. rewrite He. reflexivity.
Qed.

(** C6. When [get_provider_tags] fails, the exception leaves the body of
    [main], which logs it and ends: the trace of the run is the two opening
    lines, the tag creation and the failed listing, then the error line. It
    has no movie listing, no request to TMDB and no line of the movie stage:
    [get_movies_from_radarr] and [process_movies] are not called. *)
Theorem C6_tag_listing_failure_ends_run wl w config e :
  config_file w = Ok config ->
  outcome (get_provider_tags wl w config
             (map (fun x => lower wl (re_sub_non_alnum x)) (requiredProviders config)))
    = Raise e ->
  outcome (main_body wl w) = Raise e
  /\ main wl w
     = (LogInfo LoadingConfig
          :: LogInfo (RequiredProvidersLower
               (map (fun x => lower wl (re_sub_non_alnum x)) (requiredProviders config)))
          :: trace (create_provider_tags wl w config)
          ++ trace (get_provider_tags wl w config
               (map (fun x => lower wl (re_sub_non_alnum x)) (requiredProviders config)))
          ++ [LogError (UnexpectedError e)],
        Ok tt)
  /\ before_movies (trace (main wl w)) = true.
Proof.
  intros Hc He. destruct (main_body_tags_fail wl w config e Hc He) as [Ht Ho].
  assert (Hm : main wl w
     = (LogInfo LoadingConfig
          :: LogInfo (RequiredProvidersLower
               (map (fun x => lower wl (re_sub_non_alnum x)) (requiredProviders config)))
          :: trace (create_provider_tags wl w config)
          ++ trace (get_provider_tags wl w config
               (map (fun x => lower wl (re_sub_non_alnum x)) (requiredProviders config)))
          ++ [LogError (UnexpectedError e)],
        Ok tt)).
  { rewrite (M_eta (main wl w)). unfold main.
    rewrite !trace_bind, !outcome_bind.
    cbn [emit attempt trace outcome fst snd app].
    fold (outcome (main_body wl w)). fold (trace (main_body wl w)).
    rewrite Ho, Ht. cbn [emit trace outcome fst snd app].
    rewrite <- app_assoc. reflexivity. }
  split; [exact Ho|]. split; [exact Hm|].
  rewrite Hm. unfold before_movies. cbn [trace fst forallb movie_stage negb andb].
  rewrite !forallb_app.
  fold (before_movies (trace (create_provider_tags wl w config))).
  rewrite create_provider_tags_before_movies.
  match goal with |- context [forallb _ (trace (get_provider_tags ?a ?b ?c ?d))] =>
    fold (before_movies (trace (get_provider_tags a b c d)));
    rewrite (get_provider_tags_before_movies a b c d) end.
  reflexivity.
Qed.

Lemma C6_witness :
  (config_file c6_world = Ok c5_config
   /\ outcome (get_provider_tags wide_id c6_world c5_config
                 (map (fun x => lower wide_id (re_sub_non_alnum x)) (requiredProviders c5_config)))
      = Raise RequestException)
  /\ outcome (main_body wide_id c6_world) = Raise RequestException
  /\ main wide_id c6_world
     = (LogInfo LoadingConfig
          :: LogInfo (RequiredProvidersLower
               (map (fun x => lower wide_id (re_sub_non_alnum x)) (requiredProviders c5_config)))
          :: trace (create_provider_tags wide_id c6_world c5_config)
          ++ trace (get_provider_tags wide_id c6_world c5_config
               (map (fun x => lower wide_id (re_sub_non_alnum x)) (requiredProviders c5_config)))
          ++ [LogError (UnexpectedError RequestException)],
        Ok tt)
  /\ before_movies (trace (main wide_id c6_world)) = true.
Proof.
  split; [split; reflexivity|].
  exact (C6_tag_listing_failure_ends_run wide_id c6_world c5_config RequestException
           eq_refl eq_refl).
Defined.

(** ** The reference dump *)

Lemma str_leb_refl a : Providers.str_leb a a = true.
Proof.
  induction a as [|x a IH]; simpl; [reflexivity|].
  rewrite N.eqb_refl, IH. apply orb_true_r.
Qed.

Lemma str_leb_total a b : Providers.str_leb a b = true \/ Providers.str_leb b a = true.
Proof.
  revert b. induction a as [|x a IH]; intros [|y b]; simpl; auto.
  destruct (N.ltb_spec x y), (N.ltb_spec y x); simpl; auto; try lia.
  assert (x = y) as -> by lia. rewrite N.eqb_refl. simpl. apply IH.
Qed.

Lemma str_leb_trans a b c :
  Providers.str_leb a b = true -> Providers.str_leb b c = true -> Providers.str_leb a c = true.
Proof.
  revert b c. induction a as [|x a IH]; intros [|y b] [|z c]; simpl; auto; try discriminate.
  rewrite !orb_true_iff, !andb_true_iff, !N.ltb_lt, !N.eqb_eq.
  intros [H1|[-> H1]] [H2|[-> H2]]; eauto; left; lia.
Qed.

Lemma str_leb_antisym a b :
  Providers.str_leb a b = true -> Providers.str_leb b a = true -> a = b.
Proof.
  revert b. induction a as [|x a IH]; intros [|y b]; simpl; auto; try discriminate.
  rewrite !orb_true_iff, !andb_true_iff, !N.ltb_lt, !N.eqb_eq.
  intros [H1|[-> H1]] [H2|[H H2]]; try lia. f_equal. apply IH; assumption.
Qed.

Lemma str_le_total : Total Providers.str_le.
Proof.
  intros a b. unfold Providers.str_le. rewrite !Is_true_true. apply str_leb_total.
Qed.

Lemma str_le_trans : Transitive Providers.str_le.
Proof.
  intros a b c. unfold Providers.str_le. rewrite !Is_true_true. apply str_leb_trans.
Qed.

Lemma str_le_antisym : AntiSymm (=) Providers.str_le.
Proof.
  intros a b. unfold Providers.str_le. rewrite !Is_true_true. apply str_leb_antisym.
Qed.

#[local] Existing Instances str_le_total str_le_trans str_le_antisym.

(** [sorted(set(names))] holds the names, each once, in ascending order. *)
Lemma sorted_set_spec names :
  (forall n, n ∈ Providers.sorted_set names <-> n ∈ names)
  /\ NoDup (Providers.sorted_set names)
  /\ StronglySorted Providers.str_le (Providers.sorted_set names).
Proof.
  unfold Providers.sorted_set. split; [|split].
  - intros n. rewrite merge_sort_Permutation, elem_of_elements, elem_of_list_to_set.
    reflexivity.
  - rewrite merge_sort_Permutation. apply NoDup_elements.
  - apply StronglySorted_merge_sort; apply _.
Qed.

(** The order is that of the code points: an uppercase letter comes before
    every lowercase letter. *)
Lemma sorted_set_uppercase_first :
  Providers.sorted_set [py "fuboTV"; py "Hulu"] = [py "Hulu"; py "fuboTV"].
Proof. vm_compute. reflexivity. Qed.

(** The order in which the set is enumerated does not matter. *)
Lemma sorted_set_any_order names l :
  l ≡ₚ elements (list_to_set names : gset pystr) ->
  merge_sort Providers.str_le l = Providers.sorted_set names.
Proof.
  intros H. unfold Providers.sorted_set.
  apply (StronglySorted_unique Providers.str_le).
  - apply StronglySorted_merge_sort; apply _.
  - apply StronglySorted_merge_sort; apply _.
  - rewrite !merge_sort_Permutation. exact H.
Qed.

Lemma main_writes w f config regions providers :
  Providers.config_file w = Ok config ->
  Providers.fetch_data (Providers.regions_endpoint w) = Ok regions ->
  Providers.fetch_data (Providers.providers_endpoint w) = Ok providers ->
  Providers.main w f
  = (Some (Providers.regions_section regions ++ Providers.providers_header
             ++ Providers.providers_section (Providers.all_providers providers)),
     Ok tt).
Proof.
  intros Hc Hr Hp. unfold Providers.main, Providers.load_config.
  rewrite Hc, Hr, Hp. unfold Providers.write_to_file.
  destruct f; reflexivity.
Qed.




Lemma str_le_empty a : Providers.str_le a [] -> a = [].
Proof. destruct a; [reflexivity|]. intros []. Qed.

(** A sorted list without duplicates that holds the empty string starts
    with it and holds it nowhere else. *)
Lemma sorted_starts_empty (l : list pystr) :
  [] ∈ l -> NoDup l -> StronglySorted Providers.str_le l ->
  exists rest, l = [] :: rest /\ Forall (fun n => n <> []) rest.
Proof.
  intros Hin Hnd Hs. destruct l as [|h t]; [inversion Hin|].
  apply StronglySorted_cons in Hs. destruct Hs as [Hh Ht].
  assert (h = []) as ->.
  { apply elem_of_cons in Hin. destruct Hin as [<-|Hin]; [reflexivity|].
    apply str_le_empty. rewrite Forall_forall in Hh. apply Hh, Hin. }
  exists t. split; [reflexivity|].
  apply NoDup_cons in Hnd. destruct Hnd as [Hnot _].
  apply Forall_forall. intros n Hn ->. contradiction.
Qed.

(** C10. When a fetched provider record has no [provider_name], the
    sorted provider list starts with the empty string, every other entry is
    non-empty, and in the file the provider header is followed by an empty
    line. *)
Theorem C10_missing_name_gives_blank_line w f config regions providers :
  Providers.config_file w = Ok config ->
  Providers.fetch_data (Providers.regions_endpoint w) = Ok regions ->
  Providers.fetch_data (Providers.providers_endpoint w) = Ok providers ->
  (exists p, p ∈ providers /\ Providers.provider_name p = None) ->
  exists rest,
    Providers.all_providers providers = [] :: rest
    /\ Forall (fun n => n <> []) rest
    /\ Providers.main w f
       = (Some (Providers.regions_section regions ++ Providers.providers_header
                  ++ Providers.nl ++ Providers.providers_section rest), Ok tt).
Proof.
  intros Hc Hr Hp [p [Hin Hnone]].
  destruct (sorted_set_spec (map Providers.name_or_empty providers)) as [Hmem [Hnd Hs]].
  destruct (sorted_starts_empty (Providers.all_providers providers)) as [rest [Heq Hrest]].
  - apply Hmem. apply list_elem_of_fmap. exists p. split; [|exact Hin].
    unfold Providers.name_or_empty. rewrite Hnone. reflexivity.
  - exact Hnd.
  - exact Hs.
  - exists rest. split; [exact Heq|]. split; [exact Hrest|].
    rewrite (main_writes w f config regions providers Hc Hr Hp), Heq. reflexivity.
Qed.

Lemma C10_witness :
  (exists p, p ∈ [ named (py "Netflix"); {| Providers.provider_name := None |};
                   named (py "Hulu") ]
             /\ Providers.provider_name p = None)
  /\ exists rest,
       Providers.all_providers [ named (py "Netflix"); {| Providers.provider_name := None |};
                                 named (py "Hulu") ] = [] :: rest
       /\ Forall (fun n => n <> []) rest
       /\ Providers.main c10_world (Some (py "old"))
          = (Some (Providers.regions_section [] ++ Providers.providers_header
                     ++ Providers.nl ++ Providers.providers_section rest), Ok tt).
Proof.
  assert (H : exists p, p ∈ [ named (py "Netflix"); {| Providers.provider_name := None |};
                              named (py "Hulu") ]
                        /\ Providers.provider_name p = None).
  { exists {| Providers.provider_name := None |}. split; [|reflexivity].
    apply list_elem_of_In. right. left. reflexivity. }
  split; [exact H|].
  exact (C10_missing_name_gives_blank_line c10_world (Some (py "old")) _ _ _
           eq_refl eq_refl eq_refl H).
Defined.

(** * Further properties *)

(** ** The run as a whole *)

(** X1. When the configuration file cannot be loaded the run is three log
    lines: the opening line, the error of [load_config] and the error of
    [main]. No HTTP request is made, and [main] ends normally. *)
Theorem X1_config_failure_ends_run wl w e :
  config_file w = Raise e ->
  main wl w
  = ([ LogInfo LoadingConfig; LogError (ErrorLoadingConfig e);
       LogError (UnexpectedError e) ], Ok tt)
  /\ requests (trace (main wl w)) = [].
Proof.
  intros H.
  assert (Hm : main wl w
               = ([ LogInfo LoadingConfig; LogError (ErrorLoadingConfig e);
                    LogError (UnexpectedError e) ], Ok tt)).
  { unfold main, main_body, load_config. rewrite H. reflexivity. }
  split; [exact Hm|]. rewrite Hm. reflexivity.
Qed.

Lemma X1_witness :
  config_file x1_world = Raise OtherError
  /\ main wide_id x1_world
     = ([ LogInfo LoadingConfig; LogError (ErrorLoadingConfig OtherError);
          LogError (UnexpectedError OtherError) ], Ok tt)
  /\ requests (trace (main wide_id x1_world)) = [].
Proof.
  split; [reflexivity|].
  exact (X1_config_failure_ends_run wide_id x1_world OtherError eq_refl).
Defined.

(** X2. [create_provider_tags] posts one tag per required provider, in
    order, with the label of the specification; a request that raises is
    logged and the remaining providers are still posted; the function never
    raises. *)
Theorem X2_create_provider_tags_isolates_failures wl w config :
  create_provider_tags wl w config
  = (flat_map (post_turn wl w config) (requiredProviders config), Ok tt).
Proof.
  unfold create_provider_tags.
  induction (requiredProviders config) as [|x r IH]; [reflexivity|].
  rewrite for_each_cons, IH. cbn [flat_map].
  match goal with |- bind ?m _ = _ => assert (Hx : m = (post_turn wl w config x, Ok tt)) end.
  { unfold post_turn, spec_tag_label, request, attempt.
    rewrite re_sub_non_alnum_filter.
    destruct (post_tag w _) as [resp|e]; reflexivity. }
  rewrite Hx, bind_ok. reflexivity.
Qed.

(** X3. When the request for the tags raises, or the body of the
    response cannot be decoded, [get_provider_tags] has made that one request,
    logs "Error getting tags" as its last line and raises that same
    exception. *)
Theorem X3_get_provider_tags_failure wl w config rpl e :
  listing_fails w e ->
  get_provider_tags wl w config rpl = (listing_events w, Raise e)
  /\ requests (listing_events w) = [GetTags]
  /\ last (listing_events w) = Some (LogError (ErrorGettingTags e)).
Proof.
  unfold get_provider_tags, listing_events, listing_fails, request, attempt.
  intros [H|[st H]]; rewrite H; repeat split; reflexivity.
Qed.

Lemma X3_witness :
  listing_fails x3_world ValueError
  /\ get_provider_tags wide_id x3_world c1_config [py "netflix"]
     = (listing_events x3_world, Raise ValueError)
  /\ requests (listing_events x3_world) = [GetTags]
  /\ last (listing_events x3_world) = Some (LogError (ErrorGettingTags ValueError)).
Proof.
  assert (H : listing_fails x3_world ValueError) by (right; exists 502%Z; reflexivity).
  split; [exact H|].
  exact (X3_get_provider_tags_failure wide_id x3_world c1_config [py "netflix"] ValueError H).
Defined.

(** X4. [get_movies_from_radarr] never lets a [RequestException] out, and
    it returns a non-empty list only from a response whose status is not an
    error status and whose body decodes to that list. *)
Theorem X4_get_movies_from_radarr_guarded w config :
  outcome (get_movies_from_radarr w config) <> Raise RequestException
  /\ (forall movies,
        outcome (get_movies_from_radarr w config) = Ok movies ->
        movies = []
        \/ exists r, get_movies w = Ok r
                     /\ raise_for_status r = Ok tt
                     /\ json_body r = Ok movies).
Proof.
  unfold get_movies_from_radarr, request, attempt.
  destruct (get_movies w) as [[st jb]|e].
  - destruct (raise_for_status {| status := st; json_body := jb |}) as [[]|e] eqn:Hs.
    + destruct jb as [ms|e]; cbn; rewrite Hs; cbn.
      * split; [discriminate|]. intros movies H. right.
        exists {| status := st; json_body := Ok ms |}.
        split; [reflexivity|]. split; [exact Hs|]. cbn. congruence.
      * destruct e; cbn; (split; [discriminate|]); intros movies H;
          try discriminate; left; congruence.
    + cbn. rewrite Hs. cbn.
      destruct e; cbn; (split; [discriminate|]); intros movies H;
        try discriminate; left; congruence.
  - destruct e; cbn; (split; [discriminate|]); intros movies H;
      try discriminate; left; congruence.
Qed.

Lemma main_body_listed wl w config to_remove to_add movies :
  config_file w = Ok config ->
  outcome (get_provider_tags wl w config (required_lower wl config))
    = Ok (to_remove, to_add) ->
  outcome (get_movies_from_radarr w config) = Ok movies ->
  trace (main_body wl w)
  = LogInfo (RequiredProvidersLower (required_lower wl config))
      :: trace (create_provider_tags wl w config)
      ++ trace (get_provider_tags wl w config (required_lower wl config))
      ++ trace (get_movies_from_radarr w config)
      ++ LogInfo WorkingOnAllMovies
      :: trace (process_movies wl w movies config to_remove to_add)
  /\ outcome (main_body wl w)
     = outcome (process_movies wl w movies config to_remove to_add).
Proof.
  intros Hc Ht Hm. unfold main_body, load_config. rewrite Hc.
  change (ret config) with (([], Ok config) : M Config). rewrite bind_ok.
  cbn [trace outcome fst snd app]. fold (required_lower wl config). split.
  - rewrite !trace_bind. cbn [emit trace outcome fst snd app].
    rewrite create_provider_tags_ok, Ht, !trace_bind, Hm, !trace_bind.
    cbn [emit trace outcome fst snd app]. reflexivity.
  - rewrite !outcome_bind. cbn [emit trace outcome fst snd app].
    rewrite create_provider_tags_ok, Ht, !outcome_bind, Hm, !outcome_bind.
    cbn [emit trace outcome fst snd app]. reflexivity.
Qed.

(** X5. When the configuration loads, the tags are listed and the movie
    listing returns a list (the empty one after a failed request), a run is
    the two opening lines, the tag creation, the tag listing, the movie
    listing, the line "Working on all movies in turn" and the turns of the
    movies, in this order; an exception out of [process_movies] adds the error
    line of [main]; [main] ends normally. *)
Theorem X5_main_runs_in_order wl w config to_remove to_add movies :
  config_file w = Ok config ->
  outcome (get_provider_tags wl w config (required_lower wl config))
    = Ok (to_remove, to_add) ->
  outcome (get_movies_from_radarr w config) = Ok movies ->
  main wl w
  = (LogInfo LoadingConfig
       :: LogInfo (RequiredProvidersLower (required_lower wl config))
       :: trace (create_provider_tags wl w config)
       ++ trace (get_provider_tags wl w config (required_lower wl config))
       ++ trace (get_movies_from_radarr w config)
       ++ LogInfo WorkingOnAllMovies
       :: trace (process_movies wl w movies config to_remove to_add)
       ++ match outcome (process_movies wl w movies config to_remove to_add) with
          | Ok _ => []
          | Raise e => [LogError (UnexpectedError e)]
          end,
     Ok tt).
Proof.
  intros Hc Ht Hm.
  destruct (main_body_listed wl w config to_remove to_add movies Hc Ht Hm) as [Htr Ho].
  rewrite (M_eta (main wl w)). unfold main.
  rewrite !trace_bind, !outcome_bind.
  cbn [emit attempt trace outcome fst snd app].
  fold (outcome (main_body wl w)). fold (trace (main_body wl w)).
  rewrite Ho, Htr.
  destruct (outcome (process_movies wl w movies config to_remove to_add)) as [[]|e];
    cbn [emit ret trace outcome fst snd app];
    rewrite <- !app_assoc, <- ?app_comm_cons, <- ?app_assoc; reflexivity.
Qed.

Lemma X5_witness :
  (config_file x8_world = Ok c1_config
   /\ outcome (get_provider_tags wide_id x8_world c1_config (required_lower wide_id c1_config))
      = Ok (c1_tags, [{| tag_id := 10; label := py "t-netflix" |}])
   /\ outcome (get_movies_from_radarr x8_world c1_config) = Ok [])
  /\ main wide_id x8_world
     = (LogInfo LoadingConfig
          :: LogInfo (RequiredProvidersLower (required_lower wide_id c1_config))
          :: trace (create_provider_tags wide_id x8_world c1_config)
          ++ trace (get_provider_tags wide_id x8_world c1_config
                      (required_lower wide_id c1_config))
          ++ trace (get_movies_from_radarr x8_world c1_config)
          ++ LogInfo WorkingOnAllMovies
          :: trace (process_movies wide_id x8_world [] c1_config c1_tags
                      [{| tag_id := 10; label := py "t-netflix" |}])
          ++ match outcome (process_movies wide_id x8_world [] c1_config c1_tags
                              [{| tag_id := 10; label := py "t-netflix" |}]) with
             | Ok _ => []
             | Raise e => [LogError (UnexpectedError e)]
             end,
        Ok tt).
Proof.
  split; [repeat split|].
  exact (X5_main_runs_in_order wide_id x8_world c1_config c1_tags
           [{| tag_id := 10; label := py "t-netflix" |}] [] eq_refl eq_refl eq_refl).
Defined.

(** ** The turns of the movies *)

Lemma process_movie_lookup_failed wl w config to_remove to_add movie e :
  outcome (flatrate_providers w config movie) = Raise e ->
  process_movie wl w config to_remove to_add movie
  = (turn_header movie ++ trace (flatrate_providers w config movie)
       ++ [lookup_failure_line movie e], Ok tt).
Proof.
  intros H. rewrite (M_eta (process_movie wl w config to_remove to_add movie)).
  unfold process_movie. rewrite !trace_bind, !outcome_bind.
  cbn [emit attempt trace outcome fst snd app turn_header].
  unfold outcome in H. rewrite H. destruct e; reflexivity.
Qed.

Lemma process_movies_head wl w config to_remove to_add movie rest t :
  process_movie wl w config to_remove to_add movie = (t, Ok tt) ->
  process_movies wl w (movie :: rest) config to_remove to_add
  = (t ++ trace (process_movies wl w rest config to_remove to_add),
     outcome (process_movies wl w rest config to_remove to_add)).
Proof.
  intros H. unfold process_movies. rewrite for_each_cons, H, bind_ok. reflexivity.
Qed.

(** X6. A provider lookup that fails in any way (the request raises, the
    body cannot be decoded, the body is not an object, a key is missing)
    ends the turn of the movie with one line, "No Flatrate Providers" for a
    [KeyError] and an error line otherwise; the turn raises nothing, prints no
    updated record, and the loop goes on with the next movie. *)
Theorem X6_failed_lookup_skips_movie wl w config to_remove to_add movie rest e :
  outcome (flatrate_providers w config movie) = Raise e ->
  process_movies wl w (movie :: rest) config to_remove to_add
  = (turn_header movie ++ trace (flatrate_providers w config movie)
       ++ [lookup_failure_line movie e]
       ++ trace (process_movies wl w rest config to_remove to_add),
     outcome (process_movies wl w rest config to_remove to_add)).
Proof.
  intros H.
  rewrite (process_movies_head _ _ _ _ _ _ _ _
             (process_movie_lookup_failed wl w config to_remove to_add movie e H)).
  rewrite <- !app_assoc. reflexivity.
Qed.

Lemma X6_witness :
  outcome (flatrate_providers x10_world c1_config c5_movie) = Raise RequestException
  /\ process_movies wide_id x10_world [c5_movie; c5_movie] c1_config c1_tags c1_tags
     = (turn_header c5_movie ++ trace (flatrate_providers x10_world c1_config c5_movie)
          ++ [lookup_failure_line c5_movie RequestException]
          ++ trace (process_movies wide_id x10_world [c5_movie] c1_config c1_tags c1_tags),
        outcome (process_movies wide_id x10_world [c5_movie] c1_config c1_tags c1_tags)).
Proof.
  split; [reflexivity|].
  exact (X6_failed_lookup_skips_movie wide_id x10_world c1_config c1_tags c1_tags
           c5_movie [c5_movie] RequestException eq_refl).
Defined.

Lemma match_providers_app_raise wl config to_add good names p ps e :
  Forall2 (fun q n => getitem q (py "provider_name") = Ok (JStr n)) good names ->
  getitem p (py "provider_name") = Raise e ->
  match_providers wl config to_add (good ++ p :: ps)
  = (flat_map (adding_lines wl config to_add) names, Raise e).
Proof.
  intros Hg Hp. rewrite (M_eta (match_providers wl config to_add (good ++ p :: ps))).
  pose proof (match_providers_named wl config to_add good names Hg) as Hn.
  unfold match_providers in *.
  rewrite for_each_app_trace, for_each_app_outcome, Hn, for_each_cons, Hp.
  cbn. rewrite app_nil_r. reflexivity.
Qed.

(** X7. A flat-rate entry without [provider_name] is not caught in
    [process_movies]: after the lines of the entries before it, the
    [KeyError] leaves the loop, the movie gets no "Updated Movie record"
    line, and the movies after it are not processed. *)
Theorem X7_nameless_provider_aborts_loop
    wl w config to_remove to_add movie rest providers good names p ps e :
  outcome (flatrate_providers w config movie) = Ok providers ->
  iter providers = Ok (good ++ p :: ps) ->
  Forall2 (fun q n => getitem q (py "provider_name") = Ok (JStr n)) good names ->
  getitem p (py "provider_name") = Raise e ->
  process_movies wl w (movie :: rest) config to_remove to_add
  = (turn_header movie ++ trace (flatrate_providers w config movie)
       ++ flat_map (adding_lines wl config to_add) names,
     Raise e).
Proof.
  intros Hf Hi Hg Hp.
  assert (Hm : process_movie wl w config to_remove to_add movie
               = (turn_header movie ++ trace (flatrate_providers w config movie)
                    ++ flat_map (adding_lines wl config to_add) names, Raise e)).
  { rewrite (M_eta (process_movie wl w config to_remove to_add movie)).
    unfold process_movie. rewrite !trace_bind, !outcome_bind.
    cbn [emit attempt trace outcome fst snd app turn_header].
    unfold outcome in Hf. rewrite Hf, Hi, bind_lift_ok.
    rewrite trace_bind, outcome_bind.
    rewrite (match_providers_app_raise wl config to_add good names p ps e Hg Hp).
    cbn [trace outcome fst snd]. rewrite !app_nil_r. reflexivity. }
  unfold process_movies. rewrite for_each_cons, Hm. reflexivity.
Qed.

Lemma X7_witness :
  (outcome (flatrate_providers x9_world c1_config c5_movie)
   = Ok (JArr [ JObj [(py "provider_name", JStr (py "Netflix"))];
                JObj [(py "provider_id", JNum 8)] ])
   /\ iter (JArr [ JObj [(py "provider_name", JStr (py "Netflix"))];
                   JObj [(py "provider_id", JNum 8)] ])
      = Ok ([JObj [(py "provider_name", JStr (py "Netflix"))]]
              ++ JObj [(py "provider_id", JNum 8)] :: [])
   /\ Forall2 (fun q n => getitem q (py "provider_name") = Ok (JStr n))
              [JObj [(py "provider_name", JStr (py "Netflix"))]] [py "Netflix"]
   /\ getitem (JObj [(py "provider_id", JNum 8)]) (py "provider_name") = Raise KeyError)
  /\ process_movies wide_id x9_world [c5_movie; c5_movie] c1_config c1_tags c1_tags
     = (turn_header c5_movie ++ trace (flatrate_providers x9_world c1_config c5_movie)
          ++ flat_map (adding_lines wide_id c1_config c1_tags) [py "Netflix"],
        Raise KeyError).
Proof.
  assert (Hg : Forall2 (fun q n => getitem q (py "provider_name") = Ok (JStr n))
                 [JObj [(py "provider_name", JStr (py "Netflix"))]] [py "Netflix"])
    by (repeat constructor).
  split; [split; [reflexivity|split; [reflexivity|split; [exact Hg|reflexivity]]]|].
  exact (X7_nameless_provider_aborts_loop wide_id x9_world c1_config c1_tags c1_tags
           c5_movie [c5_movie]
           (JArr [ JObj [(py "provider_name", JStr (py "Netflix"))];
                   JObj [(py "provider_id", JNum 8)] ])
           [JObj [(py "provider_name", JStr (py "Netflix"))]] [py "Netflix"]
           (JObj [(py "provider_id", JNum 8)]) [] KeyError eq_refl eq_refl Hg eq_refl).
Defined.

(** X20. A movie whose lookup gives a list of named providers: its turn
    is the four opening lines, the lookup, the "Adding tag" lines of its
    providers in order and the line that prints the record it started with;
    then the loop goes on. *)
Theorem X20_turn_of_a_streamed_movie
    wl w config to_remove to_add movie rest providers l names :
  outcome (flatrate_providers w config movie) = Ok providers ->
  iter providers = Ok l ->
  Forall2 (fun q n => getitem q (py "provider_name") = Ok (JStr n)) l names ->
  process_movies wl w (movie :: rest) config to_remove to_add
  = (turn_header movie ++ trace (flatrate_providers w config movie)
       ++ flat_map (adding_lines wl config to_add) names
       ++ [LogInfo (UpdatedMovieRecord movie)]
       ++ trace (process_movies wl w rest config to_remove to_add),
     outcome (process_movies wl w rest config to_remove to_add)).
Proof.
  intros Hf Hi Hg.
  assert (Hm : process_movie wl w config to_remove to_add movie
               = (turn_header movie ++ trace (flatrate_providers w config movie)
                    ++ flat_map (adding_lines wl config to_add) names
                    ++ [LogInfo (UpdatedMovieRecord movie)], Ok tt)).
  { rewrite (M_eta (process_movie wl w config to_remove to_add movie)).
    unfold process_movie. rewrite !trace_bind, !outcome_bind.
    cbn [emit attempt trace outcome fst snd app turn_header].
    unfold outcome in Hf. rewrite Hf, Hi, bind_lift_ok.
    rewrite trace_bind, outcome_bind.
    rewrite (match_providers_named wl config to_add l names Hg).
    cbn [emit trace outcome fst snd]. reflexivity. }
  rewrite (process_movies_head _ _ _ _ _ _ _ _ Hm). rewrite <- !app_assoc. reflexivity.
Qed.

Lemma X20_witness :
  (outcome (flatrate_providers x20_world c1_config c5_movie)
   = Ok (JArr (map (fun n => JObj [(py "provider_name", JStr n)])
                   [py "Netflix"; py "Hulu"]))
   /\ Forall2 (fun q n => getitem q (py "provider_name") = Ok (JStr n))
              (map (fun n => JObj [(py "provider_name", JStr n)]) [py "Netflix"; py "Hulu"])
              [py "Netflix"; py "Hulu"])
  /\ process_movies wide_id x20_world [c5_movie] c1_config c1_tags c1_tags
     = (turn_header c5_movie ++ trace (flatrate_providers x20_world c1_config c5_movie)
          ++ flat_map (adding_lines wide_id c1_config c1_tags) [py "Netflix"; py "Hulu"]
          ++ [LogInfo (UpdatedMovieRecord c5_movie)]
          ++ trace (process_movies wide_id x20_world [] c1_config c1_tags c1_tags),
        outcome (process_movies wide_id x20_world [] c1_config c1_tags c1_tags)).
Proof.
  assert (Hg : Forall2 (fun q n => getitem q (py "provider_name") = Ok (JStr n))
                 (map (fun n => JObj [(py "provider_name", JStr n)])
                      [py "Netflix"; py "Hulu"])
                 [py "Netflix"; py "Hulu"]) by (repeat constructor).
  split; [split; [reflexivity|exact Hg]|].
  exact (X20_turn_of_a_streamed_movie wide_id x20_world c1_config c1_tags c1_tags
           c5_movie []
           (JArr (map (fun n => JObj [(py "provider_name", JStr n)])
                      [py "Netflix"; py "Hulu"]))
           (map (fun n => JObj [(py "provider_name", JStr n)]) [py "Netflix"; py "Hulu"])
           [py "Netflix"; py "Hulu"] eq_refl eq_refl Hg).
Defined.

Lemma requests_app t1 t2 : requests (t1 ++ t2) = requests t1 ++ requests t2.
Proof. unfold requests. apply List.filter_app. Qed.

Lemma for_each_no_requests {A} (l : list A) (body : A -> M unit) :
  (forall x, requests (trace (body x)) = []) ->
  requests (trace (for_each l body)) = [].
Proof.
  intros H. induction l as [|x r IH]; [reflexivity|].
  rewrite for_each_cons, trace_bind, requests_app, H.
  destruct (outcome (body x)); [exact IH|reflexivity].
Qed.

Lemma match_providers_no_requests wl config to_add providers :
  requests (trace (match_providers wl config to_add providers)) = [].
Proof.
  unfold match_providers. apply for_each_no_requests. intros provider.
  destruct (getitem provider (py "provider_name")) as [name|e]; [|reflexivity].
  rewrite bind_lift_ok.
  destruct (as_str name) as [provider_name|e]; [|reflexivity].
  rewrite bind_lift_ok. apply for_each_no_requests. intros t.
  destruct (str_in _ (label t)); reflexivity.
Qed.

Lemma flatrate_providers_requests w config movie :
  requests (trace (flatrate_providers w config movie))
  = [GetWatchProviders (tmdbId movie) (tmdbApiKey config)].
Proof.
  unfold flatrate_providers, get_tmdb_providers, request.
  destruct (get_watch_providers w (tmdbId movie)) as [[st [body|e]]|e];
    try reflexivity.
  cbn [bind status json_body emit lift app].
  destruct (getitem body (py "results")) as [results|e]; [|reflexivity].
  cbn [bind status json_body emit lift app].
  destruct (getitem results (providerRegion config)) as [in_region|e]; [|reflexivity].
  cbn [bind status json_body emit lift app].
  destruct (getitem in_region (py "flatrate")) as [providers|e]; reflexivity.
Qed.

Lemma process_movie_requests wl w config to_remove to_add movie :
  requests (trace (process_movie wl w config to_remove to_add movie))
  = [GetWatchProviders (tmdbId movie) (tmdbApiKey config)].
Proof.
  unfold process_movie.
  repeat (rewrite trace_bind; cbn [emit attempt trace outcome fst snd app]).
  pose proof (flatrate_providers_requests w config movie) as Hf.
  unfold requests, trace in *. cbn [List.filter is_request].
  rewrite List.filter_app, Hf.
  destruct (snd (flatrate_providers w config movie)) as [providers|e].
  - destruct (iter providers) as [l|e]; [|reflexivity].
    rewrite bind_lift_ok.
    pose proof (match_providers_no_requests wl config to_add l) as Hm.
    pose proof (trace_bind (match_providers wl config to_add l)
                  (fun _ => emit (LogInfo (UpdatedMovieRecord movie)))) as Hb.
    unfold requests, trace in *. rewrite Hb, List.filter_app, Hm.
    destruct (outcome (match_providers wl config to_add l)); reflexivity.
  - destruct e; reflexivity.
Qed.

Lemma process_movies_cons_outcome wl w config to_remove to_add movie rest :
  outcome (process_movies wl w (movie :: rest) config to_remove to_add)
  = match outcome (process_movie wl w config to_remove to_add movie) with
    | Ok _ => outcome (process_movies wl w rest config to_remove to_add)
    | Raise e => Raise e
    end.
Proof. unfold process_movies. rewrite for_each_cons. apply outcome_bind. Qed.

(** X8. The only requests [process_movies] makes are provider lookups at
    TMDB: one per movie, in the order of the list, for the movies up to the
    one whose turn raises, and for all of them when the loop ends normally.
    It sends nothing to Radarr. *)
Theorem X8_one_lookup_per_movie wl w movies config to_remove to_add :
  exists k,
    (k <= length movies)%nat
    /\ requests (trace (process_movies wl w movies config to_remove to_add))
       = map (fun m => GetWatchProviders (tmdbId m) (tmdbApiKey config)) (take k movies)
    /\ (outcome (process_movies wl w movies config to_remove to_add) = Ok tt ->
        k = length movies).
Proof.
  induction movies as [|m rest IH].
  - exists 0%nat. repeat split. lia.
  - destruct IH as [k [Hk [Hr Ho]]].
    rewrite process_movies_cons, process_movies_cons_outcome, requests_app,
      process_movie_requests.
    destruct (outcome (process_movie wl w config to_remove to_add m)) as [[]|e].
    + exists (S k). split; [simpl; lia|]. split.
      * simpl. rewrite Hr. reflexivity.
      * intros H. simpl. rewrite (Ho H). reflexivity.
    + exists 1%nat. split; [simpl; lia|]. split; [reflexivity|discriminate].
Qed.

(** ** Created tags and their classification *)

Lemma lower_app_ascii wl a b :
  is_ascii a -> is_ascii b -> lower wl (a ++ b) = lower wl a ++ lower wl b.
Proof.
  unfold is_ascii. intros Ha Hb.
  rewrite !lower_ascii by (try apply Forall_app; auto). apply map_app.
Qed.

Lemma spec_tag_label_split wl prefix name :
  is_ascii prefix ->
  spec_tag_label wl prefix name = lower wl prefix ++ lower wl (re_sub_non_alnum name).
Proof.
  intros H. unfold spec_tag_label. rewrite re_sub_non_alnum_filter.
  apply lower_app_ascii; [exact H|apply filter_alnum_ascii].
Qed.

Lemma normalized_class wl name :
  Forall (fun c => is_lower_alnum c = true) (lower wl (re_sub_non_alnum name)).
Proof.
  rewrite re_sub_non_alnum_filter, lower_filter_alnum. apply lower_filter_alnum_class.
Qed.

Lemma lowered_prefix_marked wl prefix :
  is_ascii prefix -> has_non_alnum prefix ->
  Exists (fun c => is_lower_alnum c = false) (lower wl prefix).
Proof.
  unfold is_ascii, has_non_alnum. intros Ha Hn. rewrite (lower_ascii wl prefix Ha).
  clear Ha. induction Hn as [c r Hc|c r Hr IH]; simpl.
  - apply Exists_cons_hd. revert Hc. unfold is_alnum, is_lower_alnum, ascii_lower.
    intros Hc. nbool.
  - apply Exists_cons_tl, IH.
Qed.

Lemma startswith_marked old s :
  Exists (fun c => is_lower_alnum c = false) old ->
  Forall (fun c => is_lower_alnum c = true) s ->
  startswith old s = false.
Proof.
  intros Ho Hs. destruct (startswith old s) eqn:E; [|reflexivity].
  apply startswith_spec in E. destruct E as [b ->].
  apply Forall_app in Hs. destruct Hs as [Hs _].
  apply Exists_exists in Ho. destruct Ho as [c [Hin Hc]].
  rewrite Forall_forall in Hs. specialize (Hs c Hin). congruence.
Qed.

Lemma replace_from_clean old new s :
  Exists (fun c => is_lower_alnum c = false) old ->
  Forall (fun c => is_lower_alnum c = true) s ->
  replace_from old new 0 s = s.
Proof.
  intros Ho Hs. induction Hs as [|c r Hc Hr IH]; [reflexivity|].
  cbn [replace_from].
  rewrite (startswith_marked old (c :: r) Ho) by (constructor; assumption).
  rewrite IH. reflexivity.
Qed.

Lemma replace_from_skip old new a s :
  replace_from old new (length a) (a ++ s) = replace_from old new 0 s.
Proof. induction a as [|c a IH]; [reflexivity|]. simpl. exact IH. Qed.

Lemma startswith_app old s : startswith old (old ++ s) = true.
Proof. apply startswith_spec. eauto. Qed.

(** [replace] strips a leading occurrence and nothing else when the rest
    cannot hold another one. *)
Lemma str_replace_strip old n :
  Exists (fun c => is_lower_alnum c = false) old ->
  Forall (fun c => is_lower_alnum c = true) n ->
  str_replace old [] (old ++ n) = n.
Proof.
  intros Ho Hn. destruct old as [|c old']; [inversion Ho|].
  unfold str_replace.
  change ((c :: old') ++ n) with (c :: (old' ++ n)). cbn [replace_from].
  change (c :: (old' ++ n)) with ((c :: old') ++ n). rewrite startswith_app.
  cbn [length app].
  replace (S (length old') - 1)%nat with (length old') by lia.
  rewrite replace_from_skip. apply replace_from_clean; assumption.
Qed.

Lemma str_eqb_refl a : str_eqb a a = true.
Proof. induction a as [|x a IH]; [reflexivity|]. simpl. rewrite N.eqb_refl. exact IH. Qed.

Lemma list_in_In x l : In x l -> list_in x l = true.
Proof.
  intros H. unfold list_in. apply existsb_exists. exists x. split; [exact H|].
  apply str_eqb_refl.
Qed.

Lemma str_in_refl_app a b : str_in a (a ++ b) = true.
Proof. apply str_in_spec. exists [], b. reflexivity. Qed.

Lemma created_label_in_to_add wl config provider :
  is_ascii (tagPrefix config) -> has_non_alnum (tagPrefix config) ->
  In provider (requiredProviders config) ->
  list_in (str_replace (lower wl (tagPrefix config)) []
             (spec_tag_label wl (tagPrefix config) provider))
          (required_lower wl config) = true.
Proof.
  intros Ha Hn Hin. rewrite (spec_tag_label_split wl _ provider Ha).
  rewrite str_replace_strip.
  - apply list_in_In. unfold required_lower.
    apply (List.in_map (fun x => lower wl (re_sub_non_alnum x))). exact Hin.
  - apply lowered_prefix_marked; assumption.
  - apply normalized_class.
Qed.

(** X9. For an ASCII prefix that has a character outside [A-Za-z0-9]
    (such as "t-"), the tag [create_provider_tags] creates for a required
    provider is found again: when Radarr lists a tag with that label,
    [get_provider_tags] puts it in both of its lists. *)
Theorem X9_created_tag_is_classified wl w config st existing provider t :
  get_tags w = Ok {| status := st; json_body := Ok existing |} ->
  is_ascii (tagPrefix config) ->
  has_non_alnum (tagPrefix config) ->
  In provider (requiredProviders config) ->
  In t existing ->
  label t = spec_tag_label wl (tagPrefix config) provider ->
  exists to_remove to_add,
    outcome (get_provider_tags wl w config (required_lower wl config))
      = Ok (to_remove, to_add)
    /\ In t to_remove /\ In t to_add.
Proof.
  intros Hw Ha Hn Hp Ht Hl. rewrite (get_provider_tags_listing _ _ _ _ _ _ Hw).
  eexists _, _. split; [reflexivity|]. rewrite !List.filter_In, Hl. repeat split; auto.
  - rewrite (spec_tag_label_split wl _ provider Ha). apply str_in_refl_app.
  - apply created_label_in_to_add; assumption.
Qed.

Lemma X9_witness :
  (get_tags (world_of c1_config c1_tags [] (fun _ => JNull))
   = Ok {| status := 200; json_body := Ok c1_tags |}
   /\ is_ascii (tagPrefix c1_config)
   /\ has_non_alnum (tagPrefix c1_config)
   /\ In (py "Netflix") (requiredProviders c1_config)
   /\ In {| tag_id := 10; label := py "t-netflix" |} c1_tags
   /\ label {| tag_id := 10; label := py "t-netflix" |}
      = spec_tag_label wide_id (tagPrefix c1_config) (py "Netflix"))
  /\ exists to_remove to_add,
       outcome (get_provider_tags wide_id (world_of c1_config c1_tags [] (fun _ => JNull))
                  c1_config (required_lower wide_id c1_config))
         = Ok (to_remove, to_add)
       /\ In {| tag_id := 10; label := py "t-netflix" |} to_remove
       /\ In {| tag_id := 10; label := py "t-netflix" |} to_add.
Proof.
  assert (Ha : is_ascii (tagPrefix c1_config))
    by (repeat constructor).
  assert (Hn : has_non_alnum (tagPrefix c1_config))
    by (apply Exists_cons_tl, Exists_cons_hd; reflexivity).
  assert (Hp : In (py "Netflix") (requiredProviders c1_config))
    by (left; reflexivity).
  assert (Ht : In {| tag_id := 10; label := py "t-netflix" |} c1_tags)
    by (left; reflexivity).
  split; [repeat split; assumption|].
  exact (X9_created_tag_is_classified wide_id (world_of c1_config c1_tags [] (fun _ => JNull))
           c1_config 200 c1_tags (py "Netflix") {| tag_id := 10; label := py "t-netflix" |}
           eq_refl Ha Hn Hp Ht eq_refl).
Defined.

Lemma str_in_cons_false old c r :
  str_in old (c :: r) = false -> startswith old (c :: r) = false /\ str_in old r = false.
Proof. cbn [str_in]. intros H. apply orb_false_iff in H. exact H. Qed.

Lemma replace_from_absent old s : str_in old s = false -> replace_from old [] 0 s = s.
Proof.
  induction s as [|c r IH]; [reflexivity|]. intros H.
  apply str_in_cons_false in H. destruct H as [Hs Hr].
  cbn [replace_from]. rewrite Hs, (IH Hr). reflexivity.
Qed.

(** [replace] changes nothing in a string without an occurrence. *)
Lemma str_replace_absent old s : str_in old s = false -> str_replace old [] s = s.
Proof.
  destruct old as [|c old'].
  - destruct s; discriminate.
  - apply replace_from_absent.
Qed.

(** X10. A listed tag whose label is itself one of the normalized
    required names, and does not contain the lowercased prefix, is put in the
    second list of [get_provider_tags] and not in the first: the second list
    is not a part of the first. *)
Theorem X10_unprefixed_label_is_only_added wl w config rpl st existing t :
  get_tags w = Ok {| status := st; json_body := Ok existing |} ->
  In t existing ->
  list_in (label t) rpl = true ->
  ~ contains (lower wl (tagPrefix config)) (label t) ->
  exists to_remove to_add,
    outcome (get_provider_tags wl w config rpl) = Ok (to_remove, to_add)
    /\ In t to_add /\ ~ In t to_remove.
Proof.
  intros Hw Ht Hl Hc. rewrite (get_provider_tags_listing _ _ _ _ _ _ Hw).
  eexists _, _. split; [reflexivity|].
  assert (Hs : str_in (lower wl (tagPrefix config)) (label t) = false).
  { destruct (str_in _ (label t)) eqn:E; [|reflexivity].
    exfalso. apply Hc, str_in_spec, E. }
  rewrite !List.filter_In, (str_replace_absent _ _ Hs), Hs. split.
  - split; assumption.
  - intros [_ H]. discriminate.
Qed.

Lemma X10_witness :
  (get_tags (world_of c1_config [{| tag_id := 4; label := py "netflix" |}] [] (fun _ => JNull))
   = Ok {| status := 200; json_body := Ok [{| tag_id := 4; label := py "netflix" |}] |}
   /\ In {| tag_id := 4; label := py "netflix" |} [{| tag_id := 4; label := py "netflix" |}]
   /\ list_in (label {| tag_id := 4; label := py "netflix" |})
              (required_lower wide_id c1_config) = true
   /\ ~ contains (lower wide_id (tagPrefix c1_config))
                 (label {| tag_id := 4; label := py "netflix" |}))
  /\ exists to_remove to_add,
       outcome (get_provider_tags wide_id
                  (world_of c1_config [{| tag_id := 4; label := py "netflix" |}] []
                     (fun _ => JNull))
                  c1_config (required_lower wide_id c1_config))
         = Ok (to_remove, to_add)
       /\ In {| tag_id := 4; label := py "netflix" |} to_add
       /\ ~ In {| tag_id := 4; label := py "netflix" |} to_remove.
Proof.
  assert (Ht : In {| tag_id := 4; label := py "netflix" |}
                  [{| tag_id := 4; label := py "netflix" |}])
    by (left; reflexivity).
  assert (Hc : ~ contains (lower wide_id (tagPrefix c1_config))
                          (label {| tag_id := 4; label := py "netflix" |})).
  { intros H. apply str_in_spec in H. vm_compute in H. discriminate. }
  split; [split; [reflexivity|split; [exact Ht|split; [reflexivity|exact Hc]]]|].
  exact (X10_unprefixed_label_is_only_added wide_id
           (world_of c1_config [{| tag_id := 4; label := py "netflix" |}] [] (fun _ => JNull))
           c1_config (required_lower wide_id c1_config) 200
           [{| tag_id := 4; label := py "netflix" |}]
           {| tag_id := 4; label := py "netflix" |} eq_refl Ht eq_refl Hc).
Defined.

Lemma filter_true {A} (f : A -> bool) l : (forall x, f x = true) -> List.filter f l = l.
Proof. intros H. apply filter_all_true, Forall_forall. intros x _. apply H. Qed.

Lemma str_in_empty s : str_in [] s = true.
Proof. destruct s; reflexivity. Qed.

Lemma str_replace_empty s : str_replace [] [] s = s.
Proof.
  unfold str_replace. cbn [app]. induction s as [|c r IH]; [reflexivity|].
  cbn [flat_map app]. rewrite IH. reflexivity.
Qed.

(** X11. With an empty prefix every listed tag counts as managed: the
    first list of [get_provider_tags] is the whole listing, and the second
    holds the tags whose label is one of the normalized required names. *)
Theorem X11_empty_prefix_takes_every_tag wl w config rpl st existing :
  get_tags w = Ok {| status := st; json_body := Ok existing |} ->
  tagPrefix config = [] ->
  outcome (get_provider_tags wl w config rpl)
  = Ok (existing, List.filter (fun t => list_in (label t) rpl) existing).
Proof.
  intros Hw Hp. rewrite (get_provider_tags_listing _ _ _ _ _ _ Hw), Hp.
  cbn [outcome snd]. change (lower wl []) with (@nil N).
  rewrite (filter_true _ existing) by (intros t; apply str_in_empty).
  f_equal. f_equal. apply List.filter_ext. intros t. rewrite str_replace_empty. reflexivity.
Qed.

Lemma X11_witness :
  (get_tags (world_of (config_of [] [py "Netflix"] (py "US")) c1_tags [] (fun _ => JNull))
   = Ok {| status := 200; json_body := Ok c1_tags |}
   /\ tagPrefix (config_of [] [py "Netflix"] (py "US")) = [])
  /\ outcome (get_provider_tags wide_id
                (world_of (config_of [] [py "Netflix"] (py "US")) c1_tags [] (fun _ => JNull))
                (config_of [] [py "Netflix"] (py "US")) [py "netflix"])
     = Ok (c1_tags, List.filter (fun t => list_in (label t) [py "netflix"]) c1_tags).
Proof.
  split; [split; reflexivity|].
  exact (X11_empty_prefix_takes_every_tag wide_id
           (world_of (config_of [] [py "Netflix"] (py "US")) c1_tags [] (fun _ => JNull))
           (config_of [] [py "Netflix"] (py "US")) [py "netflix"] 200 c1_tags
           eq_refl eq_refl).
Defined.

Lemma str_in_refl a : str_in a a = true.
Proof. apply str_in_spec. exists [], []. rewrite app_nil_r. reflexivity. Qed.

(** X12. From creation to the log line: for an ASCII prefix with a
    character outside [A-Za-z0-9], when Radarr lists the tag of a required
    provider and a movie streams on a provider whose name normalizes to the
    same text, the provider loop of [process_movies], run with the second
    list of [get_provider_tags], logs "Adding tag" with the label of that
    tag. *)
Theorem X12_streaming_provider_is_logged
    wl w config st existing provider t providers names name :
  get_tags w = Ok {| status := st; json_body := Ok existing |} ->
  is_ascii (tagPrefix config) ->
  has_non_alnum (tagPrefix config) ->
  In provider (requiredProviders config) ->
  In t existing ->
  label t = spec_tag_label wl (tagPrefix config) provider ->
  Forall2 (fun p n => getitem p (py "provider_name") = Ok (JStr n)) providers names ->
  In name names ->
  lower wl (re_sub_non_alnum name) = lower wl (re_sub_non_alnum provider) ->
  exists to_remove to_add,
    outcome (get_provider_tags wl w config (required_lower wl config))
      = Ok (to_remove, to_add)
    /\ In (LogInfo (AddingTag (label t)))
          (trace (match_providers wl config to_add providers)).
Proof.
  intros Hw Ha Hn Hp Ht Hl Hnamed Hin Heq.
  rewrite (get_provider_tags_listing _ _ _ _ _ _ Hw).
  eexists _, _. split; [reflexivity|].
  rewrite (match_providers_named _ _ _ _ _ Hnamed). cbn [trace fst].
  apply List.in_flat_map. exists name. split; [exact Hin|].
  assert (Hlabel : spec_tag_label wl (tagPrefix config) name = label t).
  { rewrite Hl, !spec_tag_label_split by exact Ha. rewrite Heq. reflexivity. }
  unfold adding_lines. rewrite Hlabel.
  apply List.in_map_iff. exists t. split; [reflexivity|].
  apply List.filter_In. split; [|apply str_in_refl].
  apply List.filter_In. split; [exact Ht|].
  rewrite Hl. apply created_label_in_to_add; assumption.
Qed.

Lemma X12_witness :
  (Forall2 (fun p n => getitem p (py "provider_name") = Ok (JStr n))
           c1_providers [py "Netflix"; py "Hulu"]
   /\ lower wide_id (re_sub_non_alnum (py "Netflix"))
      = lower wide_id (re_sub_non_alnum (py "Netflix")))
  /\ exists to_remove to_add,
       outcome (get_provider_tags wide_id (world_of c1_config c1_tags [] (fun _ => JNull))
                  c1_config (required_lower wide_id c1_config))
         = Ok (to_remove, to_add)
       /\ In (LogInfo (AddingTag (label {| tag_id := 10; label := py "t-netflix" |})))
             (trace (match_providers wide_id c1_config to_add c1_providers)).
Proof.
  assert (Ha : is_ascii (tagPrefix c1_config)) by (repeat constructor).
  assert (Hn : has_non_alnum (tagPrefix c1_config))
    by (apply Exists_cons_tl, Exists_cons_hd; reflexivity).
  assert (Hp : In (py "Netflix") (requiredProviders c1_config)) by (left; reflexivity).
  assert (Ht : In {| tag_id := 10; label := py "t-netflix" |} c1_tags) by (left; reflexivity).
  assert (Hnamed : Forall2 (fun p n => getitem p (py "provider_name") = Ok (JStr n))
                     c1_providers [py "Netflix"; py "Hulu"]) by (repeat constructor).
  assert (Hin : In (py "Netflix") [py "Netflix"; py "Hulu"]) by (left; reflexivity).
  split; [split; [exact Hnamed|reflexivity]|].
  exact (X12_streaming_provider_is_logged wide_id
           (world_of c1_config c1_tags [] (fun _ => JNull)) c1_config 200 c1_tags
           (py "Netflix") {| tag_id := 10; label := py "t-netflix" |}
           c1_providers [py "Netflix"; py "Hulu"] (py "Netflix")
           eq_refl Ha Hn Hp Ht eq_refl Hnamed Hin eq_refl).
Defined.

(** X13. For an ASCII prefix every label [create_provider_tags] posts is
    the lowercased prefix followed by the entry of the list of line 157 for
    the same provider. *)
Theorem X13_posted_labels_are_prefixed wl w config :
  is_ascii (tagPrefix config) ->
  posted_labels (trace (create_provider_tags wl w config))
  = map (fun n => lower wl (tagPrefix config) ++ n) (required_lower wl config).
Proof.
  intros Ha. rewrite create_provider_tags_posts. unfold required_lower.
  rewrite List.map_map. apply List.map_ext. intros name.
  apply spec_tag_label_split, Ha.
Qed.

Lemma X13_witness :
  is_ascii (tagPrefix c1_config)
  /\ posted_labels (trace (create_provider_tags wide_id
                             (world_of c1_config [] [] (fun _ => JNull)) c1_config))
     = map (fun n => lower wide_id (tagPrefix c1_config) ++ n)
           (required_lower wide_id c1_config).
Proof.
  assert (Ha : is_ascii (tagPrefix c1_config)) by (repeat constructor).
  split; [exact Ha|].
  exact (X13_posted_labels_are_prefixed wide_id (world_of c1_config [] [] (fun _ => JNull))
           c1_config Ha).
Defined.

(** ** Removing tag ids, on any list *)

Local Open Scope Z_scope.

Lemma list_remove_ok x l l' :
  list_remove x l = Ok l' ->
  sublist l' l
  /\ length l = S (length l')
  /\ (forall y, y <> x -> count_occ Z.eq_dec l' y = count_occ Z.eq_dec l y).
Proof.
  revert l'. induction l as [|z r IH]; intros l'; simpl; [discriminate|].
  destruct (Z.eqb_spec x z) as [->|Hne].
  - intros H. inversion H; subst. split; [apply sublist_cons; reflexivity|].
    split; [reflexivity|]. intros y Hy.
    destruct (Z.eq_dec z y); [congruence|reflexivity].
  - destruct (list_remove x r) as [r'|e]; [|discriminate].
    intros H. inversion H; subst. destruct (IH r' eq_refl) as [Hs [Hl Hc]].
    split; [apply sublist_skip, Hs|]. split; [simpl; rewrite Hl; reflexivity|].
    intros y Hy. simpl. rewrite (Hc y Hy). reflexivity.
Qed.

Lemma removing_lines_emit_bind {B} i (m : M B) :
  removing_lines (trace (bind (emit (LogInfo (RemovingProviderId i))) (fun _ => m)))
  = S (removing_lines (trace m)).
Proof. rewrite trace_bind. reflexivity. Qed.

Lemma not_among_cons x ids y :
  not_among (x :: ids) y = true -> y <> x /\ not_among ids y = true.
Proof.
  unfold not_among. simpl. rewrite negb_orb, andb_true_iff, negb_true_iff.
  intros [H1 H2]. split; [|exact H2]. intros ->. rewrite Z.eqb_refl in H1. discriminate.
Qed.

Lemma remove_ids_any ids l :
  exists l',
    outcome (remove_ids ids l) = Ok l'
    /\ sublist l' l
    /\ length l = (length l' + removing_lines (trace (remove_ids ids l)))%nat
    /\ (forall y, not_among ids y = true ->
                  count_occ Z.eq_dec l' y = count_occ Z.eq_dec l y).
Proof.
  revert l. induction ids as [|x ids IH]; intros l; cbn [remove_ids].
  - exists l. split; [reflexivity|]. split; [reflexivity|].
    split; [cbn; lia|reflexivity].
  - destruct (list_remove x l) as [l1|e] eqn:E.
    + destruct (list_remove_ok _ _ _ E) as [Hs [Hl Hc]].
      destruct (IH l1) as [l' [Ho [Hs' [Hl' Hc']]]].
      exists l'. rewrite outcome_emit_bind, removing_lines_emit_bind.
      split; [exact Ho|]. split; [etransitivity; eassumption|].
      split; [lia|]. intros y Hy. apply not_among_cons in Hy. destruct Hy as [Hne Hy].
      rewrite (Hc' y Hy). apply Hc, Hne.
    + rewrite (list_remove_raises _ _ _ E).
      destruct (IH l) as [l' [Ho [Hs' [Hl' Hc']]]].
      exists l'. split; [exact Ho|]. split; [exact Hs'|]. split; [exact Hl'|].
      intros y Hy. apply not_among_cons in Hy. apply Hc', Hy.
Qed.

(** X14. On every list of ids, with or without duplicates,
    [remove_provider_tags] raises nothing and returns a sublist of the
    current ids in their order; the list is shorter by one for each line
    "Removing providerId" logged, and an id that is not in [to_remove] keeps
    all its occurrences. *)
Theorem X14_remove_provider_tags_any_list (current : list Z) (to_remove : list Tag) :
  exists result,
    outcome (remove_provider_tags current to_remove) = Ok result
    /\ sublist result current
    /\ length current
       = (length result
          + removing_lines (trace (remove_provider_tags current to_remove)))%nat
    /\ (forall y, not_among (map tag_id to_remove) y = true ->
                  count_occ Z.eq_dec result y = count_occ Z.eq_dec current y).
Proof.
  destruct (remove_ids_any (map tag_id to_remove) current) as [l' [Ho [Hs [Hl Hc]]]].
  exists l'. unfold remove_provider_tags. rewrite outcome_emit_bind, trace_bind.
  split; [exact Ho|]. split; [exact Hs|]. split; [exact Hl|exact Hc].
Qed.

Lemma remove_ids_app a b l :
  exists l1,
    outcome (remove_ids a l) = Ok l1
    /\ outcome (remove_ids (a ++ b) l) = outcome (remove_ids b l1).
Proof.
  revert l. induction a as [|x a IH]; intros l.
  - exists l. split; reflexivity.
  - rewrite <- app_comm_cons. cbn [remove_ids].
    destruct (list_remove x l) as [l1|e] eqn:E.
    + rewrite !outcome_emit_bind. apply IH.
    + rewrite (list_remove_raises _ _ _ E). apply IH.
Qed.

(** X15. Removing the ids of two tag lists one after the other gives
    what removing the ids of their concatenation gives. *)
Theorem X15_remove_provider_tags_composes (current : list Z) (first second : list Tag) :
  exists middle,
    outcome (remove_provider_tags current first) = Ok middle
    /\ outcome (remove_provider_tags current (first ++ second))
       = outcome (remove_provider_tags middle second).
Proof.
  unfold remove_provider_tags. rewrite List.map_app.
  destruct (remove_ids_app (map tag_id first) (map tag_id second) current) as [l1 [H1 H2]].
  exists l1. rewrite !outcome_emit_bind. split; assumption.
Qed.

Local Close Scope Z_scope.

(** ** The reference dump, beyond the provider order *)

(** X16. The old report is deleted before anything is fetched: when the
    configuration loads and fetching the regions or the providers raises,
    the run ends with that exception and no report file is left, whatever was
    there before. *)
Theorem X16_failed_fetch_leaves_no_report w f config e :
  Providers.config_file w = Ok config ->
  (Providers.fetch_data (Providers.regions_endpoint w) = Raise e
   \/ exists regions,
        Providers.fetch_data (Providers.regions_endpoint w) = Ok regions
        /\ Providers.fetch_data (Providers.providers_endpoint w) = Raise e) ->
  Providers.main w f = (None, Raise e).
Proof.
  intros Hc H. unfold Providers.main, Providers.load_config. rewrite Hc.
  destruct H as [H|[regions [Hr Hp]]].
  - rewrite H. destruct f; reflexivity.
  - rewrite Hr, Hp. destruct f; reflexivity.
Qed.

Lemma X16_witness :
  (Providers.config_file x14_world = Ok (config_of (py "t-") [] (py "US"))
   /\ (Providers.fetch_data (Providers.regions_endpoint x14_world) = Raise RequestException
       \/ exists regions,
            Providers.fetch_data (Providers.regions_endpoint x14_world) = Ok regions
            /\ Providers.fetch_data (Providers.providers_endpoint x14_world)
               = Raise RequestException))
  /\ Providers.main x14_world (Some (py "old report")) = (None, Raise RequestException).
Proof.
  assert (H : Providers.fetch_data (Providers.regions_endpoint x14_world)
              = Raise RequestException
              \/ exists regions,
                   Providers.fetch_data (Providers.regions_endpoint x14_world) = Ok regions
                   /\ Providers.fetch_data (Providers.providers_endpoint x14_world)
                      = Raise RequestException).
  { right. exists []. split; reflexivity. }
  split; [split; [reflexivity|exact H]|].
  exact (X16_failed_fetch_leaves_no_report x14_world (Some (py "old report"))
           (config_of (py "t-") [] (py "US")) RequestException eq_refl H).
Defined.

(** X17. Running the dump again on the file it left gives the same file
    and the same end: a report is replaced, never extended, although the file
    is opened for appending. *)
Theorem X17_reference_dump_rerun w f :
  Providers.main w (fst (Providers.main w f)) = Providers.main w f.
Proof.
  unfold Providers.main, Providers.load_config.
  destruct (Providers.config_file w) as [config|e]; [|reflexivity].
  destruct (Providers.fetch_data (Providers.regions_endpoint w)) as [regions|e];
    [|destruct f; reflexivity].
  destruct (Providers.fetch_data (Providers.providers_endpoint w)) as [providers|e];
    destruct f; reflexivity.
Qed.

Lemma sorted_set_same_names names1 names2 :
  (forall n, In n names1 <-> In n names2) ->
  Providers.sorted_set names1 = Providers.sorted_set names2.
Proof.
  intros H. unfold Providers.sorted_set. do 2 f_equal.
  apply set_eq. intros n. rewrite !elem_of_list_to_set, !list_elem_of_In. apply H.
Qed.

(** X18. The provider list of the report depends only on which names
    occur among the fetched records, not on their order or their number of
    occurrences; sorting and deduplicating it again changes nothing. *)
Theorem X18_all_providers_depends_on_name_set providers1 providers2 :
  (forall n, In n (map Providers.name_or_empty providers1)
             <-> In n (map Providers.name_or_empty providers2)) ->
  Providers.all_providers providers1 = Providers.all_providers providers2
  /\ Providers.sorted_set (Providers.all_providers providers1)
     = Providers.all_providers providers1.
Proof.
  intros H. unfold Providers.all_providers. split.
  - apply sorted_set_same_names, H.
  - apply sorted_set_same_names. intros n. rewrite <- !list_elem_of_In.
    apply (proj1 (sorted_set_spec (map Providers.name_or_empty providers1))).
Qed.

Lemma X18_witness :
  (forall n, In n (map Providers.name_or_empty
                     (map named [py "Netflix"; py "Hulu"; py "Netflix"]))
             <-> In n (map Providers.name_or_empty (map named [py "Hulu"; py "Netflix"])))
  /\ Providers.all_providers (map named [py "Netflix"; py "Hulu"; py "Netflix"])
     = Providers.all_providers (map named [py "Hulu"; py "Netflix"])
  /\ Providers.sorted_set
       (Providers.all_providers (map named [py "Netflix"; py "Hulu"; py "Netflix"]))
     = Providers.all_providers (map named [py "Netflix"; py "Hulu"; py "Netflix"]).
Proof.
  assert (H : forall n,
             In n (map Providers.name_or_empty
                     (map named [py "Netflix"; py "Hulu"; py "Netflix"]))
             <-> In n (map Providers.name_or_empty (map named [py "Hulu"; py "Netflix"]))).
  { intros n. cbn [map named Providers.name_or_empty Providers.provider_name In]. tauto. }
  split; [exact H|].
  exact (X18_all_providers_depends_on_name_set
           (map named [py "Netflix"; py "Hulu"; py "Netflix"])
           (map named [py "Hulu"; py "Netflix"]) H).
Defined.

Lemma line_split p p' r r' :
  one_line p -> one_line p' -> p ++ 10 :: r = p' ++ 10 :: r' -> p = p' /\ r = r'.
Proof.
  unfold one_line. revert p'. induction p as [|c p IH]; intros [|c' p'] Hp Hp' H;
    simpl in H; inversion H; subst.
  - split; reflexivity.
  - exfalso. apply Hp'. left. reflexivity.
  - exfalso. apply Hp. left. reflexivity.
  - destruct (IH p') as [-> ->]; auto.
    + intros Hin. apply Hp. right. exact Hin.
    + intros Hin. apply Hp'. right. exact Hin.
Qed.

Lemma providers_section_cons p ps :
  Providers.providers_section (p :: ps) = p ++ 10 :: Providers.providers_section ps.
Proof.
  unfold Providers.providers_section, Providers.nl. cbn [flat_map].
  rewrite <- app_assoc. reflexivity.
Qed.

(** X19. The provider section can be read back: two lists of names
    without line breaks that give the same section are the same list. *)
Theorem X19_providers_section_injective providers1 providers2 :
  Forall one_line providers1 ->
  Forall one_line providers2 ->
  Providers.providers_section providers1 = Providers.providers_section providers2 ->
  providers1 = providers2.
Proof.
  intros H1. revert providers2. induction H1 as [|p ps Hp Hps IH];
    intros providers2 H2 Heq; destruct H2 as [|p' ps' Hp' Hps'].
  - reflexivity.
  - rewrite providers_section_cons in Heq. destruct p'; discriminate.
  - rewrite providers_section_cons in Heq. destruct p; discriminate.
  - rewrite !providers_section_cons in Heq.
    destruct (line_split _ _ _ _ Hp Hp' Heq) as [-> Hrest].
    f_equal. apply IH; assumption.
Qed.

Lemma X19_witness :
  (Forall one_line [py "Hulu"; py "Netflix"]
   /\ Providers.providers_section [py "Hulu"; py "Netflix"]
      = Providers.providers_section [py "Hulu"; py "Netflix"])
  /\ [py "Hulu"; py "Netflix"] = [py "Hulu"; py "Netflix"].
Proof.
  assert (H : Forall one_line [py "Hulu"; py "Netflix"]).
  { repeat constructor; unfold one_line; intros Hin; vm_compute in Hin;
      repeat (destruct Hin as [Hin|Hin]; [discriminate|]); contradiction. }
  split; [split; [exact H|reflexivity]|].
  exact (X19_providers_section_injective [py "Hulu"; py "Netflix"] [py "Hulu"; py "Netflix"]
           H H eq_refl).
Defined.
